(** * Wakeup and low-power coordination of the i.MX8MP DWC3 glue layer

    A shallow embedding of [drivers/usb/dwc3/dwc3-imx8mp.c]: the wakeup
    control register helpers, the threaded interrupt handler and the
    suspend/resume core with its system-sleep and runtime entry points.

    Integers of the driver are [Z] with the C truncations written out,
    the hardware and the kernel services the driver calls are a state
    record threaded through a small state monad, and every externally
    visible action (MMIO access, clock call, resume request, ...) is
    appended to a trace so that order and multiplicity can be stated. *)

From Stdlib Require Import ZArith List Bool Lia.
From Stdlib Require String.
Import ListNotations.
Import String.StringSyntax.
Delimit Scope string_scope with string.
Local Open Scope Z_scope.

(* ================================================================== *)
(** * Machine integers and the bit macros *)
(* ================================================================== *)

(** [unsigned long] is 64 bits wide on arm64, [u32] is 32 bits wide. *)
Definition BITS_PER_LONG : Z := 64.
Definition ULONG_MAX : Z := 2 ^ BITS_PER_LONG - 1.

(** Conversion of a value to [unsigned long] and to [u32]. *)
Definition ulong (x : Z) : Z := x mod 2 ^ BITS_PER_LONG.
Definition u32 (x : Z) : Z := x mod 2 ^ 32.

(** The values a [u32] object can hold. *)
Definition is_u32 (x : Z) : Prop := 0 <= x < 2 ^ 32.

(** C's [~x] at type [unsigned long]. *)
Definition not_ul (x : Z) : Z := Z.lxor x ULONG_MAX.

(** Modelled from the spec: [linux/bits.h] is not among the sources.
    [BIT(nr)] is the register flag at bit position [nr], computed as
    [1UL << nr]. *)
Definition BIT (nr : Z) : Z := ulong (Z.shiftl 1 nr).

(** Modelled from the spec: [linux/bits.h] is not among the sources.
    [GENMASK(h, l)] is the contiguous field of flags from bit [l] up to
    bit [h], computed as
    [((~0UL) - (1UL << l) + 1) & (~0UL >> (BITS_PER_LONG - 1 - h))]. *)
Definition GENMASK (h l : Z) : Z :=
  Z.land (ulong (ulong (not_ul 0 - ulong (Z.shiftl 1 l)) + 1))
         (Z.shiftr (not_ul 0) (BITS_PER_LONG - 1 - h)).

(* ================================================================== *)
(** * Register layout *)
(* ================================================================== *)

(** USB wakeup registers, as offsets from [glue_base]. *)
Definition USB_WAKEUP_CTRL : Z := 0x00.
Definition USB_WAKEUP_STATUS : Z := 0x04.

(** Global wakeup interrupt enable, also used to clear interrupt. *)
Definition USB_WAKEUP_EN : Z := BIT 31.
(** Wakeup from connection or disconnection, only for superspeed. *)
Definition USB_WAKEUP_SS_CONN : Z := BIT 5.
(** 0 selects vbus_valid, 1 selects sessvld. *)
Definition USB_WAKEUP_VBUS_SRC_SESS_VAL : Z := BIT 4.
(** Enable signal for wake up from u3 state. *)
Definition USB_WAKEUP_U3_EN : Z := BIT 3.
(** Enable signal for wake up from id change. *)
Definition USB_WAKEUP_ID_EN : Z := BIT 2.
(** Enable signal for wake up from vbus change. *)
Definition USB_WAKEUP_VBUS_EN : Z := BIT 1.
(** Enable signal for wake up from dp/dm change. *)
Definition USB_WAKEUP_DPDM_EN : Z := BIT 0.

Definition USB_WAKEUP_EN_MASK : Z := GENMASK 5 0.

(** Modelled from the spec: [core.h] is not among the sources.  The
    child controller reports its current role as a port-capability
    code; Host and Device are two distinct codes and every other code
    is no role for the glue.  The numbering is that of the PRTCAPDIR
    field of the controller's GCTL register. *)
Definition DWC3_GCTL_PRTCAP_HOST : Z := 1.
Definition DWC3_GCTL_PRTCAP_DEVICE : Z := 2.
Definition DWC3_GCTL_PRTCAP_OTG : Z := 3.

(** Modelled from the spec: [linux/pm.h] is not among the sources.  A
    power-management message carries an event word; the autonomous-idle
    (runtime) requests are the ones with the AUTO flag set. *)
Record pm_message_t : Type := { event : Z }.

Definition PM_EVENT_SUSPEND : Z := 0x0002.
Definition PM_EVENT_RESUME : Z := 0x0010.
Definition PM_EVENT_AUTO : Z := 0x0400.

Definition PMSG_SUSPEND : pm_message_t := {| event := PM_EVENT_SUSPEND |}.
Definition PMSG_RESUME : pm_message_t := {| event := PM_EVENT_RESUME |}.
Definition PMSG_AUTO_SUSPEND : pm_message_t :=
  {| event := Z.lor PM_EVENT_AUTO PM_EVENT_SUSPEND |}.
Definition PMSG_AUTO_RESUME : pm_message_t :=
  {| event := Z.lor PM_EVENT_AUTO PM_EVENT_RESUME |}.

Definition PMSG_IS_AUTO (msg : pm_message_t) : bool :=
  negb (Z.land (event msg) PM_EVENT_AUTO =? 0).

(** [irqreturn_t] of [linux/irqreturn.h]. *)
Inductive irqreturn_t : Type := IRQ_NONE | IRQ_HANDLED | IRQ_WAKE_THREAD.

(* ================================================================== *)
(** * Data model *)
(* ================================================================== *)

(** A [struct device *] is an opaque handle. *)
Definition device : Type := Z.

(** The part of [struct dwc3] the glue looks at: the controller's own
    device, the xhci platform device ([None] for a NULL pointer) and the
    current dual-role state. *)
Record dwc3 : Type := {
  dwc_dev : device;
  xhci : option device;
  current_dr_role : Z
}.

(** Modelled from the spec: the clock framework is not among the
    sources.  A clock handle offers [enable() -> Result] and
    [disable()]: [enable_count] counts the enables that are in force and
    [enable_ret] is what the next [clk_prepare_enable] on the handle
    returns (0 on success, a negative errno on failure). *)
Record clk : Type := {
  enable_count : nat;
  enable_ret : Z
}.

(** The two clocks of the glue: [bus_clk] and [sleep_clk]. *)
Inductive clk_id : Type := BusClk | SleepClk.

(** What the driver does to the outside world, in program order. *)
Inductive action : Type :=
| Readl (offset value : Z)
| Writel (value offset : Z)
| ClkPrepareEnable (c : clk_id) (ret : Z)
| ClkDisableUnprepare (c : clk_id)
| PmRuntimeResume (d : device)
| EnableIrqWake (irq : Z)
| DisableIrqWake (irq : Z)
| PmRuntimeDisable (d : device)
| PmRuntimeSetActive (d : device)
| PmRuntimeEnable (d : device).

(** [struct dwc3_imx8mp] together with what its pointers lead to: the
    content of the wakeup control register behind [glue_base], the
    driver data of the child [dwc3] platform device, the two clocks and
    the wake capability of [dev] as [device_may_wakeup] reports it. *)
Record dwc3_imx8mp : Type := {
  dev : device;
  dwc3_drvdata : dwc3;
  wakeup_ctrl : Z;
  bus_clk : clk;
  sleep_clk : clk;
  irq : Z;
  pm_suspended : bool;
  may_wakeup : bool;
  trace : list action
}.

Definition set_wakeup_ctrl (v : Z) (s : dwc3_imx8mp) : dwc3_imx8mp :=
  {| dev := dev s; dwc3_drvdata := dwc3_drvdata s; wakeup_ctrl := v;
     bus_clk := bus_clk s; sleep_clk := sleep_clk s; irq := irq s;
     pm_suspended := pm_suspended s; may_wakeup := may_wakeup s;
     trace := trace s |}.

Definition set_bus_clk (c : clk) (s : dwc3_imx8mp) : dwc3_imx8mp :=
  {| dev := dev s; dwc3_drvdata := dwc3_drvdata s;
     wakeup_ctrl := wakeup_ctrl s;
     bus_clk := c; sleep_clk := sleep_clk s; irq := irq s;
     pm_suspended := pm_suspended s; may_wakeup := may_wakeup s;
     trace := trace s |}.

Definition set_sleep_clk (c : clk) (s : dwc3_imx8mp) : dwc3_imx8mp :=
  {| dev := dev s; dwc3_drvdata := dwc3_drvdata s;
     wakeup_ctrl := wakeup_ctrl s;
     bus_clk := bus_clk s; sleep_clk := c; irq := irq s;
     pm_suspended := pm_suspended s; may_wakeup := may_wakeup s;
     trace := trace s |}.

Definition clk_of (id : clk_id) (s : dwc3_imx8mp) : clk :=
  match id with BusClk => bus_clk s | SleepClk => sleep_clk s end.

Definition set_clk (id : clk_id) (c : clk) (s : dwc3_imx8mp) : dwc3_imx8mp :=
  match id with BusClk => set_bus_clk c s | SleepClk => set_sleep_clk c s end.

Definition set_pm_suspended (b : bool) (s : dwc3_imx8mp) : dwc3_imx8mp :=
  {| dev := dev s; dwc3_drvdata := dwc3_drvdata s;
     wakeup_ctrl := wakeup_ctrl s;
     bus_clk := bus_clk s; sleep_clk := sleep_clk s; irq := irq s;
     pm_suspended := b; may_wakeup := may_wakeup s;
     trace := trace s |}.

Definition set_dwc3_drvdata (d : dwc3) (s : dwc3_imx8mp) : dwc3_imx8mp :=
  {| dev := dev s; dwc3_drvdata := d; wakeup_ctrl := wakeup_ctrl s;
     bus_clk := bus_clk s; sleep_clk := sleep_clk s; irq := irq s;
     pm_suspended := pm_suspended s; may_wakeup := may_wakeup s;
     trace := trace s |}.

Definition log (a : action) (s : dwc3_imx8mp) : dwc3_imx8mp :=
  {| dev := dev s; dwc3_drvdata := dwc3_drvdata s;
     wakeup_ctrl := wakeup_ctrl s;
     bus_clk := bus_clk s; sleep_clk := sleep_clk s; irq := irq s;
     pm_suspended := pm_suspended s; may_wakeup := may_wakeup s;
     trace := trace s ++ [a] |}.

(* ================================================================== *)
(** * The driver monad *)
(* ================================================================== *)

(** A driver routine transforms the state and yields a value. *)
Definition drv (A : Type) : Type := dwc3_imx8mp -> A * dwc3_imx8mp.

Definition ret {A : Type} (a : A) : drv A := fun s => (a, s).

Definition bind {A B : Type} (m : drv A) (k : A -> drv B) : drv B :=
  fun s => let (a, s') := m s in k a s'.

Declare Scope drv_scope.
Delimit Scope drv_scope with drv.
Notation "x <- m ;; k" := (bind m (fun x => k))
  (at level 61, m at next level, right associativity) : drv_scope.
Notation "m ;; k" := (bind m (fun _ => k))
  (at level 61, right associativity) : drv_scope.
Local Open Scope drv_scope.

Definition get {A : Type} (f : dwc3_imx8mp -> A) : drv A :=
  fun s => (f s, s).

Definition modify (f : dwc3_imx8mp -> dwc3_imx8mp) : drv unit :=
  fun s => (tt, f s).

Definition when (b : bool) (m : drv unit) : drv unit :=
  if b then m else ret tt.

(** Final state and returned value of a routine. *)
Definition exec {A : Type} (m : drv A) (s : dwc3_imx8mp) : dwc3_imx8mp :=
  snd (m s).
Definition eval {A : Type} (m : drv A) (s : dwc3_imx8mp) : A :=
  fst (m s).
(** The actions a routine performs from [s], as the suffix it adds to
    the trace. *)
Definition performed {A : Type} (m : drv A) (s : dwc3_imx8mp) : list action :=
  skipn (length (trace s)) (trace (exec m s)).

(* ================================================================== *)
(** * Kernel services used by the glue *)
(* ================================================================== *)

(** [readl(glue_base + offset)].  The wakeup control register is the
    only location of the bank the driver accesses; any other offset
    reads as zero. *)
Definition readl (offset : Z) : drv Z :=
  v <- get (fun s => if offset =? USB_WAKEUP_CTRL then wakeup_ctrl s else 0) ;;
  modify (log (Readl offset v)) ;;
  ret v.

(** [writel(value, glue_base + offset)]. *)
Definition writel (value offset : Z) : drv unit :=
  modify (log (Writel value offset)) ;;
  when (offset =? USB_WAKEUP_CTRL) (modify (set_wakeup_ctrl value)).

(** [platform_get_drvdata(dwc_imx->dwc3)]. *)
Definition platform_get_drvdata : drv dwc3 := get dwc3_drvdata.

(** [device_may_wakeup(dwc->dev)]. *)
Definition device_may_wakeup : drv bool := get may_wakeup.

(** [clk_prepare_enable]: on success one more enable is in force, on
    failure the clock is left as it was; the result goes to the
    caller. *)
Definition clk_prepare_enable (id : clk_id) : drv Z :=
  c <- get (clk_of id) ;;
  modify (log (ClkPrepareEnable id (enable_ret c))) ;;
  when (enable_ret c =? 0)
       (modify (set_clk id {| enable_count := S (enable_count c);
                              enable_ret := enable_ret c |})) ;;
  ret (enable_ret c).

(** [clk_disable_unprepare]: drops one enable (a clock that is already
    off stays off). *)
Definition clk_disable_unprepare (id : clk_id) : drv unit :=
  c <- get (clk_of id) ;;
  modify (log (ClkDisableUnprepare id)) ;;
  modify (set_clk id {| enable_count := Nat.pred (enable_count c);
                        enable_ret := enable_ret c |}).

(** [pm_runtime_resume(d)]; the driver ignores its result. *)
Definition pm_runtime_resume (d : device) : drv unit :=
  modify (log (PmRuntimeResume d)).

Definition enable_irq_wake (n : Z) : drv unit := modify (log (EnableIrqWake n)).
Definition disable_irq_wake (n : Z) : drv unit := modify (log (DisableIrqWake n)).
Definition pm_runtime_disable (d : device) : drv unit :=
  modify (log (PmRuntimeDisable d)).
Definition pm_runtime_set_active (d : device) : drv unit :=
  modify (log (PmRuntimeSetActive d)).
Definition pm_runtime_enable (d : device) : drv unit :=
  modify (log (PmRuntimeEnable d)).

(* ================================================================== *)
(** * The driver *)
(* ================================================================== *)

(** The bits [dwc_imx8mp_wakeup_enable] ORs in for a host. *)
Definition wakeup_host_bits : Z :=
  Z.lor (Z.lor (Z.lor USB_WAKEUP_EN USB_WAKEUP_SS_CONN) USB_WAKEUP_U3_EN)
        USB_WAKEUP_DPDM_EN.

(** The bits [dwc_imx8mp_wakeup_enable] ORs in for a device. *)
Definition wakeup_device_bits : Z :=
  Z.lor (Z.lor USB_WAKEUP_EN USB_WAKEUP_VBUS_EN) USB_WAKEUP_VBUS_SRC_SESS_VAL.

(** The bits [dwc_imx8mp_wakeup_disable] clears. *)
Definition wakeup_all_bits : Z := Z.lor USB_WAKEUP_EN USB_WAKEUP_EN_MASK.

(** The value [dwc_imx8mp_wakeup_enable] computes from the value read. *)
Definition wakeup_enable_val (dwc : dwc3) (val : Z) : Z :=
  match xhci dwc with
  | Some _ => u32 (Z.lor val wakeup_host_bits)
  | None =>
      if current_dr_role dwc =? DWC3_GCTL_PRTCAP_DEVICE
      then u32 (Z.lor val wakeup_device_bits)
      else val
  end.

(** The value [dwc_imx8mp_wakeup_disable] computes from the value read. *)
Definition wakeup_disable_val (val : Z) : Z :=
  u32 (Z.land val (not_ul wakeup_all_bits)).

Definition dwc_imx8mp_wakeup_enable : drv unit :=
  dwc <- platform_get_drvdata ;;
  val <- readl USB_WAKEUP_CTRL ;;
  writel (wakeup_enable_val dwc val) USB_WAKEUP_CTRL.

Definition dwc_imx8mp_wakeup_disable : drv unit :=
  val <- readl USB_WAKEUP_CTRL ;;
  writel (wakeup_disable_val val) USB_WAKEUP_CTRL.

Definition dwc3_imx8mp_interrupt : drv irqreturn_t :=
  dwc <- platform_get_drvdata ;;
  suspended <- get pm_suspended ;;
  if negb suspended then ret IRQ_HANDLED
  else
    (* Clear wakeup irq *)
    dwc_imx8mp_wakeup_disable ;;
    (* runtime resume xhci or gadget *)
    match current_dr_role dwc =? DWC3_GCTL_PRTCAP_HOST, xhci dwc with
    | true, Some x => pm_runtime_resume x
    | _, _ =>
        when (current_dr_role dwc =? DWC3_GCTL_PRTCAP_DEVICE)
             (pm_runtime_resume (dwc_dev dwc))
    end ;;
    ret IRQ_HANDLED.

Definition dwc3_imx8mp_suspend (msg : pm_message_t) : drv Z :=
  suspended <- get pm_suspended ;;
  if suspended then ret 0
  else
    (* Wakeup enable *)
    wake <- device_may_wakeup ;;
    when (PMSG_IS_AUTO msg || wake) dwc_imx8mp_wakeup_enable ;;
    clk_disable_unprepare BusClk ;;
    modify (set_pm_suspended true) ;;
    ret 0.

Definition dwc3_imx8mp_resume (msg : pm_message_t) : drv Z :=
  suspended <- get pm_suspended ;;
  if negb suspended then ret 0
  else
    modify (set_pm_suspended false) ;;
    r <- clk_prepare_enable BusClk ;;
    (* Wakeup disable *)
    dwc_imx8mp_wakeup_disable ;;
    ret r.

Definition dwc3_imx8mp_pm_suspend : drv Z :=
  wake <- device_may_wakeup ;;
  n <- get irq ;;
  when wake (enable_irq_wake n) ;;
  dwc3_imx8mp_suspend PMSG_SUSPEND.

Definition dwc3_imx8mp_pm_resume : drv Z :=
  wake <- device_may_wakeup ;;
  n <- get irq ;;
  when wake (disable_irq_wake n) ;;
  r <- dwc3_imx8mp_resume PMSG_RESUME ;;
  d <- get dev ;;
  pm_runtime_disable d ;;
  pm_runtime_set_active d ;;
  pm_runtime_enable d ;;
  ret r.

Definition dwc3_imx8mp_runtime_suspend : drv Z :=
  dwc3_imx8mp_suspend PMSG_AUTO_SUSPEND.

Definition dwc3_imx8mp_runtime_resume : drv Z :=
  dwc3_imx8mp_resume PMSG_AUTO_RESUME.

(* ================================================================== *)
(** * Notions used in the statements *)
(* ================================================================== *)

(** The field that survives a disarm: bits 30..6. *)
Definition wakeup_kept_bits : Z := Z.land (not_ul wakeup_all_bits) (Z.ones 32).

(** The writes among a list of actions. *)
Definition is_write (a : action) : bool :=
  match a with Writel _ _ => true | _ => false end.

(** The resume requests among a list of actions, in order. *)
Fixpoint resume_requests (l : list action) : list device :=
  match l with
  | [] => []
  | PmRuntimeResume d :: l' => d :: resume_requests l'
  | _ :: l' => resume_requests l'
  end.

(** A sequence of arm and disarm operations; between two operations the
    child controller may have changed its role or its host child. *)
Inductive wakeup_op : Type :=
| Arm (dwc : dwc3)
| Disarm.

Definition run_op (o : wakeup_op) : drv unit :=
  match o with
  | Arm dwc => modify (set_dwc3_drvdata dwc) ;; dwc_imx8mp_wakeup_enable
  | Disarm => dwc_imx8mp_wakeup_disable
  end.

Fixpoint run_ops (ops : list wakeup_op) : drv unit :=
  match ops with
  | [] => ret tt
  | o :: ops' => run_op o ;; run_ops ops'
  end.

(** The register images the driver can produce from the quiescent one. *)
Definition armed_images : list Z :=
  [0; wakeup_host_bits; wakeup_device_bits;
   Z.lor wakeup_host_bits wakeup_device_bits].

(** The resume requests the handler issues for a controller state. *)
Definition interrupt_resumes (dwc : dwc3) : list device :=
  match current_dr_role dwc =? DWC3_GCTL_PRTCAP_HOST, xhci dwc with
  | true, Some x => [x]
  | _, _ =>
      if current_dr_role dwc =? DWC3_GCTL_PRTCAP_DEVICE
      then [dwc_dev dwc] else []
  end.

Fixpoint log_all (l : list action) (s : dwc3_imx8mp) : dwc3_imx8mp :=
  match l with
  | [] => s
  | a :: l' => log_all l' (log a s)
  end.

(* ================================================================== *)
(** * Sample instances *)
(* ================================================================== *)

Definition sample_dwc (x : option device) (role : Z) : dwc3 :=
  {| dwc_dev := 2; xhci := x; current_dr_role := role |}.

Definition sample_clk (ret : Z) (n : nat) : clk :=
  {| enable_count := n; enable_ret := ret |}.

(** An instance with register content [reg], right after probe when
    [suspended] is false. *)
Definition sample_glue (dwc : dwc3) (reg : Z) (suspended : bool) : dwc3_imx8mp :=
  {| dev := 1; dwc3_drvdata := dwc; wakeup_ctrl := reg;
     bus_clk := sample_clk 0 (if suspended then 0 else 1);
     sleep_clk := sample_clk 0 1;
     irq := 40; pm_suspended := suspended; may_wakeup := true;
     trace := [] |}.

(** An active host instance whose register already has the id-change
    bit set. *)
Definition host_glue_id_set : dwc3_imx8mp :=
  sample_glue (sample_dwc (Some 3) DWC3_GCTL_PRTCAP_HOST) USB_WAKEUP_ID_EN false.

(** An active host instance with a quiescent register. *)
Definition host_glue : dwc3_imx8mp :=
  sample_glue (sample_dwc (Some 3) DWC3_GCTL_PRTCAP_HOST) 0 false.

(** An active device instance (no host child) with a quiescent register. *)
Definition device_glue : dwc3_imx8mp :=
  sample_glue (sample_dwc None DWC3_GCTL_PRTCAP_DEVICE) 0 false.

(** An active instance that has a host child while its current role is
    Device, quiescent. *)
Definition host_child_device_role_glue : dwc3_imx8mp :=
  sample_glue (sample_dwc (Some 3) DWC3_GCTL_PRTCAP_DEVICE) 0 false.

(** An active instance with no host child and no role (OTG), quiescent. *)
Definition norole_glue : dwc3_imx8mp :=
  sample_glue (sample_dwc None DWC3_GCTL_PRTCAP_OTG) 0 false.

(** An active device instance whose register has bit 6 set, a bit
    outside the wakeup field. *)
Definition device_glue_bit6 : dwc3_imx8mp :=
  sample_glue (sample_dwc None DWC3_GCTL_PRTCAP_DEVICE) (BIT 6) false.

(** A suspended host instance, armed for a host. *)
Definition host_glue_suspended : dwc3_imx8mp :=
  sample_glue (sample_dwc (Some 3) DWC3_GCTL_PRTCAP_HOST) wakeup_host_bits true.

(** A suspended device instance whose bus clock refuses to come back
    ([-EIO] from the clock framework). *)
Definition device_glue_clock_broken : dwc3_imx8mp :=
  set_bus_clk (sample_clk (-5) 0)
    (sample_glue (sample_dwc None DWC3_GCTL_PRTCAP_DEVICE)
                 wakeup_device_bits true).

(* ================================================================== *)
(** * The instance under the power-management framework *)
(* ================================================================== *)

Definition set_may_wakeup (b : bool) (s : dwc3_imx8mp) : dwc3_imx8mp :=
  {| dev := dev s; dwc3_drvdata := dwc3_drvdata s;
     wakeup_ctrl := wakeup_ctrl s;
     bus_clk := bus_clk s; sleep_clk := sleep_clk s; irq := irq s;
     pm_suspended := pm_suspended s; may_wakeup := b;
     trace := trace s |}.

(** What can happen to a bound instance: the framework calls one of the
    four callbacks of [dwc3_imx8mp_dev_pm_ops], the wakeup interrupt
    fires, the child controller changes its role or its host child, user
    space switches the wake capability of the device, or the clock
    framework changes what it will answer to the next enable of the bus
    clock. *)
Inductive glue_event : Type :=
| PmSuspend
| PmResume
| RuntimeSuspend
| RuntimeResume
| Interrupt
| ChildChanged (dwc : dwc3)
| WakeCapability (b : bool)
| BusClkAnswers (ret : Z).

Definition run_event (e : glue_event) : drv unit :=
  match e with
  | PmSuspend => dwc3_imx8mp_pm_suspend ;; ret tt
  | PmResume => dwc3_imx8mp_pm_resume ;; ret tt
  | RuntimeSuspend => dwc3_imx8mp_runtime_suspend ;; ret tt
  | RuntimeResume => dwc3_imx8mp_runtime_resume ;; ret tt
  | Interrupt => dwc3_imx8mp_interrupt ;; ret tt
  | ChildChanged dwc => modify (set_dwc3_drvdata dwc)
  | WakeCapability b => modify (set_may_wakeup b)
  | BusClkAnswers r =>
      modify (fun s => set_bus_clk {| enable_count := enable_count (bus_clk s);
                                      enable_ret := r |} s)
  end.

Fixpoint run_events (es : list glue_event) : drv unit :=
  match es with
  | [] => ret tt
  | e :: es' => run_event e ;; run_events es'
  end.

(** The bus clock is not made to fail by an event. *)
Definition clock_reliable (e : glue_event) : bool :=
  match e with
  | BusClkAnswers r => r =? 0
  | _ => true
  end.

(** Actions on the sleep clock. *)
Definition on_sleep_clk (a : action) : bool :=
  match a with
  | ClkPrepareEnable SleepClk _ | ClkDisableUnprepare SleepClk => true
  | _ => false
  end.

Definition is_enable_irq_wake (a : action) : bool :=
  match a with EnableIrqWake _ => true | _ => false end.

Definition is_disable_irq_wake (a : action) : bool :=
  match a with DisableIrqWake _ => true | _ => false end.


(** Runtime suspend, the wakeup interrupt, runtime resume. *)
Definition wake_cycle : list glue_event :=
  [RuntimeSuspend; Interrupt; RuntimeResume].

(* ================================================================== *)
(** * The role hook *)
(* ================================================================== *)

(** Modelled from the spec: the runtime PM core is not among the
    sources.  The autosuspend policy of the controller device is one
    flag, which [pm_runtime_use_autosuspend] sets ("enabled") and
    [pm_runtime_dont_use_autosuspend] clears ("disabled"). *)
Definition pm_runtime_use_autosuspend (use_autosuspend : bool) : bool := true.
Definition pm_runtime_dont_use_autosuspend (use_autosuspend : bool) : bool :=
  false.

(** [dwc3_imx8mp_set_role_post(dwc, role)], acting on the autosuspend
    policy of [dwc->dev]. *)
Definition dwc3_imx8mp_set_role_post (role : Z) (use_autosuspend : bool) : bool :=
  if role =? DWC3_GCTL_PRTCAP_HOST
  then pm_runtime_dont_use_autosuspend use_autosuspend
  else if role =? DWC3_GCTL_PRTCAP_DEVICE
       then pm_runtime_use_autosuspend use_autosuspend
       else use_autosuspend.

(** The policy after the child has reported a series of role switches. *)
Definition set_role_post_all (roles : list Z) (use_autosuspend : bool) : bool :=
  fold_left (fun u role => dwc3_imx8mp_set_role_post role u) roles use_autosuspend.

(** The roles the hook reacts to. *)
Definition host_or_device (role : Z) : bool :=
  (role =? DWC3_GCTL_PRTCAP_HOST) || (role =? DWC3_GCTL_PRTCAP_DEVICE).

(* ================================================================== *)
(** * Probe and remove *)
(* ================================================================== *)

(** Error numbers of [errno.h]. *)
Definition EIO : Z := 5.
Definition ENOMEM : Z := 12.
Definition ENODEV : Z := 19.
Definition EINVAL : Z := 22.
Definition EPROBE_DEFER : Z := 517.

(** A pointer result in the [ERR_PTR] convention: valid, or an encoded
    error number; [PTR_ERR] of the latter is the negated number. *)
Inductive err_ptr : Type :=
| Valid
| ErrPtr (errno : positive).

(** The platform device handed to probe, with what each kernel service
    answers for it: whether [dev->of_node] is set, whether the two
    allocations succeed, the results of mapping the registers and of
    looking up the two clocks, the result of [platform_get_irq] (an
    interrupt number, or a negative error), the results of
    [devm_request_threaded_irq] and [of_platform_populate] (0 or an
    error), whether the node has a child named dwc3, and what
    [of_find_device_by_node] finds for it: no device, a device without
    driver data, or a device with its [struct dwc3]. *)
Record platform : Type := {
  of_node : bool;
  devm_kzalloc_glue : bool;
  devm_platform_ioremap_resource : err_ptr;
  devm_clk_get_bus : err_ptr;
  devm_clk_get_sleep : err_ptr;
  platform_get_irq : Z;
  devm_request_threaded_irq : Z;
  of_get_child_by_name : bool;
  of_platform_populate : Z;
  of_find_device_by_node : option (option dwc3);
  devm_kzalloc_priv_data : bool
}.

(** What probe and remove do to the device model, in program order. *)
Inductive lifecycle_action : Type :=
| PlatformSetDrvdata (bound : bool)
| LcClkPrepareEnable (c : clk_id) (ret : Z)
| LcClkDisableUnprepare (c : clk_id)
| RequestThreadedIrq (irq ret : Z)
| OfPlatformPopulate (ret : Z)
| OfPlatformDepopulate
| SetRolePostHook
| DeviceInitWakeup
| LcPmRuntimeSetActive
| LcPmRuntimeEnable
| LcPmRuntimeGetSync
| LcPmRuntimeDisable
| LcPmRuntimePutNoidle.

(** The two clocks of the platform and the record of what was done. *)
Record lifecycle : Type := {
  lc_bus_clk : clk;
  lc_sleep_clk : clk;
  lc_log : list lifecycle_action
}.

Definition lc_clk (id : clk_id) (w : lifecycle) : clk :=
  match id with BusClk => lc_bus_clk w | SleepClk => lc_sleep_clk w end.

Definition lc_set_clk (id : clk_id) (c : clk) (w : lifecycle) : lifecycle :=
  match id with
  | BusClk => {| lc_bus_clk := c; lc_sleep_clk := lc_sleep_clk w;
                 lc_log := lc_log w |}
  | SleepClk => {| lc_bus_clk := lc_bus_clk w; lc_sleep_clk := c;
                   lc_log := lc_log w |}
  end.

Definition lc_do (a : lifecycle_action) (w : lifecycle) : lifecycle :=
  {| lc_bus_clk := lc_bus_clk w; lc_sleep_clk := lc_sleep_clk w;
     lc_log := lc_log w ++ [a] |}.

(** [clk_prepare_enable] and [clk_disable_unprepare] on the platform's
    clocks, as for a bound instance. *)
Definition lc_clk_prepare_enable (id : clk_id) (w : lifecycle) : Z * lifecycle :=
  let c := lc_clk id w in
  let w := lc_do (LcClkPrepareEnable id (enable_ret c)) w in
  (enable_ret c,
   if enable_ret c =? 0
   then lc_set_clk id {| enable_count := S (enable_count c);
                         enable_ret := enable_ret c |} w
   else w).

Definition lc_clk_disable_unprepare (id : clk_id) (w : lifecycle) : lifecycle :=
  let c := lc_clk id w in
  lc_set_clk id {| enable_count := Nat.pred (enable_count c);
                   enable_ret := enable_ret c |}
             (lc_do (LcClkDisableUnprepare id) w).

(** The code at label [disable_clks] of probe. *)
Definition probe_disable_clks (error : Z) (w : lifecycle) : Z * lifecycle :=
  (error, lc_clk_disable_unprepare SleepClk (lc_clk_disable_unprepare BusClk w)).

(** The code at label [depopulate] of probe, which falls through to
    [disable_clks]. *)
Definition probe_depopulate (error : Z) (w : lifecycle) : Z * lifecycle :=
  probe_disable_clks error (lc_do OfPlatformDepopulate w).

(** [dwc3_imx8mp_probe]; diagnostics ([dev_err]) are left out. *)
Definition dwc3_imx8mp_probe (pdev : platform) (w : lifecycle) : Z * lifecycle :=
  if negb (of_node pdev) then (- EINVAL, w) else
  if negb (devm_kzalloc_glue pdev) then (- ENOMEM, w) else
  let w := lc_do (PlatformSetDrvdata true) w in
  match devm_platform_ioremap_resource pdev with
  | ErrPtr e => (Z.neg e, w)
  | Valid =>
  match devm_clk_get_bus pdev with
  | ErrPtr e => (Z.neg e, w)
  | Valid =>
  match devm_clk_get_sleep pdev with
  | ErrPtr e => (Z.neg e, w)
  | Valid =>
  let (error, w) := lc_clk_prepare_enable BusClk w in
  if negb (error =? 0) then (error, w) else
  let (error, w) := lc_clk_prepare_enable SleepClk w in
  if negb (error =? 0) then (error, lc_clk_disable_unprepare BusClk w) else
  let irq := platform_get_irq pdev in
  if irq <? 0 then probe_disable_clks irq w else
  let error := devm_request_threaded_irq pdev in
  let w := lc_do (RequestThreadedIrq irq error) w in
  if negb (error =? 0) then probe_disable_clks error w else
  if negb (of_get_child_by_name pdev) then probe_disable_clks error w else
  let error := of_platform_populate pdev in
  let w := lc_do (OfPlatformPopulate error) w in
  if negb (error =? 0) then probe_disable_clks error w else
  match of_find_device_by_node pdev with
  | None => probe_depopulate (- ENODEV) w
  | Some None => probe_depopulate (- EPROBE_DEFER) w
  | Some (Some dwc) =>
      if negb (devm_kzalloc_priv_data pdev) then probe_depopulate (- ENOMEM) w
      else
        let w := lc_do SetRolePostHook w in
        let w := lc_do DeviceInitWakeup w in
        let w := lc_do LcPmRuntimeSetActive w in
        let w := lc_do LcPmRuntimeEnable w in
        (0, w)
  end
  end
  end
  end.

(** [dwc3_imx8mp_remove]. *)
Definition dwc3_imx8mp_remove (w : lifecycle) : Z * lifecycle :=
  let w := lc_do LcPmRuntimeGetSync w in
  let w := lc_do OfPlatformDepopulate w in
  let w := lc_clk_disable_unprepare BusClk w in
  let w := lc_clk_disable_unprepare SleepClk w in
  let w := lc_do LcPmRuntimeDisable w in
  let w := lc_do LcPmRuntimePutNoidle w in
  let w := lc_do (PlatformSetDrvdata false) w in
  (0, w).

(** The log of a probe that stops for a missing dwc3 child node. *)
Definition probe_log_no_child (irq : Z) : list lifecycle_action :=
  [PlatformSetDrvdata true;
   LcClkPrepareEnable BusClk 0; LcClkPrepareEnable SleepClk 0;
   RequestThreadedIrq irq 0;
   LcClkDisableUnprepare BusClk; LcClkDisableUnprepare SleepClk].

(** What probe adds to the log. *)
Definition probe_log (pdev : platform) (w : lifecycle) : list lifecycle_action :=
  skipn (length (lc_log w)) (lc_log (snd (dwc3_imx8mp_probe pdev w))).

Definition is_runtime_enable (a : lifecycle_action) : bool :=
  match a with LcPmRuntimeEnable => true | _ => false end.

Definition is_depopulate (a : lifecycle_action) : bool :=
  match a with OfPlatformDepopulate => true | _ => false end.

Definition is_populated (a : lifecycle_action) : bool :=
  match a with OfPlatformPopulate r => r =? 0 | _ => false end.

(** Probe went through to its end. *)
Definition probe_completed (pdev : platform) (w : lifecycle) : bool :=
  existsb is_runtime_enable (probe_log pdev w).

(** A platform on which every step of probe succeeds. *)
Definition sample_platform : platform :=
  {| of_node := true; devm_kzalloc_glue := true;
     devm_platform_ioremap_resource := Valid;
     devm_clk_get_bus := Valid; devm_clk_get_sleep := Valid;
     platform_get_irq := 40; devm_request_threaded_irq := 0;
     of_get_child_by_name := true; of_platform_populate := 0;
     of_find_device_by_node :=
       Some (Some (sample_dwc None DWC3_GCTL_PRTCAP_DEVICE));
     devm_kzalloc_priv_data := true |}.

(** The same platform without a child node named dwc3. *)
Definition sample_platform_no_child : platform :=
  {| of_node := true; devm_kzalloc_glue := true;
     devm_platform_ioremap_resource := Valid;
     devm_clk_get_bus := Valid; devm_clk_get_sleep := Valid;
     platform_get_irq := 40; devm_request_threaded_irq := 0;
     of_get_child_by_name := false; of_platform_populate := 0;
     of_find_device_by_node := None;
     devm_kzalloc_priv_data := true |}.

(** The same platform whose dwc3 core has not bound yet. *)
Definition sample_platform_deferred : platform :=
  {| of_node := true; devm_kzalloc_glue := true;
     devm_platform_ioremap_resource := Valid;
     devm_clk_get_bus := Valid; devm_clk_get_sleep := Valid;
     platform_get_irq := 40; devm_request_threaded_irq := 0;
     of_get_child_by_name := true; of_platform_populate := 0;
     of_find_device_by_node := Some None;
     devm_kzalloc_priv_data := true |}.

(** Both clocks off and willing, nothing done yet. *)
Definition sample_lifecycle : lifecycle :=
  {| lc_bus_clk := sample_clk 0 0; lc_sleep_clk := sample_clk 0 0;
     lc_log := [] |}.

(* ================================================================== *)
(** * The audio clock multiplexer: [clk-imx8qm-acm.c] *)
(* ================================================================== *)

(** [struct imx8qm_acm_priv]: the register bank behind [reg], as the
    content at each offset, and the save area [u32 regs[32]]. *)
Record imx8qm_acm_priv : Type := {
  reg : Z -> Z;
  regs : list Z
}.

(** [readl_relaxed(priv->reg + offset)]. *)
Definition readl_relaxed (priv : imx8qm_acm_priv) (offset : Z) : Z :=
  reg priv offset.

(** [writel_relaxed(value, priv->reg + offset)]. *)
Definition writel_relaxed (value offset : Z) (priv : imx8qm_acm_priv)
  : imx8qm_acm_priv :=
  {| reg := fun o => if o =? offset then value else reg priv o;
     regs := regs priv |}.

(** Assignment to one element of an array. *)
Fixpoint array_set (i : nat) (v : Z) (a : list Z) : list Z :=
  match a, i with
  | [], _ => []
  | _ :: a', O => v :: a'
  | x :: a', S i' => x :: array_set i' v a'
  end.

(** [priv->regs[i] = readl_relaxed(priv->reg + offset)]. *)
Definition acm_save (i : nat) (offset : Z) (priv : imx8qm_acm_priv)
  : imx8qm_acm_priv :=
  {| reg := reg priv;
     regs := array_set i (readl_relaxed priv offset) (regs priv) |}.

(** [writel_relaxed(priv->regs[i], priv->reg + offset)]. *)
Definition acm_restore (i : nat) (offset : Z) (priv : imx8qm_acm_priv)
  : imx8qm_acm_priv :=
  writel_relaxed (nth i (regs priv) 0) offset priv.

Definition imx8qm_acm_suspend (priv : imx8qm_acm_priv) : Z * imx8qm_acm_priv :=
  let priv := acm_save 0 0x000000 priv in
  let priv := acm_save 1 0x010000 priv in
  let priv := acm_save 2 0x020000 priv in
  let priv := acm_save 3 0x030000 priv in
  let priv := acm_save 4 0x040000 priv in
  let priv := acm_save 6 0x060000 priv in
  let priv := acm_save 7 0x070000 priv in
  let priv := acm_save 14 0x0E0000 priv in
  let priv := acm_save 15 0x0F0000 priv in
  let priv := acm_save 16 0x100000 priv in
  let priv := acm_save 17 0x110000 priv in
  let priv := acm_save 18 0x120000 priv in
  let priv := acm_save 19 0x130000 priv in
  let priv := acm_save 20 0x140000 priv in
  let priv := acm_save 21 0x150000 priv in
  let priv := acm_save 26 0x1A0000 priv in
  let priv := acm_save 27 0x1B0000 priv in
  let priv := acm_save 28 0x1C0000 priv in
  (0, priv).

Definition imx8qm_acm_resume (priv : imx8qm_acm_priv) : Z * imx8qm_acm_priv :=
  let priv := acm_restore 0 0x000000 priv in
  let priv := acm_restore 1 0x010000 priv in
  let priv := acm_restore 2 0x020000 priv in
  let priv := acm_restore 3 0x030000 priv in
  let priv := acm_restore 4 0x040000 priv in
  let priv := acm_restore 6 0x060000 priv in
  let priv := acm_restore 7 0x070000 priv in
  let priv := acm_restore 14 0x0E0000 priv in
  let priv := acm_restore 15 0x0F0000 priv in
  let priv := acm_restore 16 0x100000 priv in
  let priv := acm_restore 17 0x110000 priv in
  let priv := acm_restore 18 0x120000 priv in
  let priv := acm_restore 19 0x130000 priv in
  let priv := acm_restore 20 0x140000 priv in
  let priv := acm_restore 21 0x150000 priv in
  let priv := acm_restore 26 0x1A0000 priv in
  let priv := acm_restore 27 0x1B0000 priv in
  let priv := acm_restore 28 0x1C0000 priv in
  (0, priv).

(** The bank loses its content while the system sleeps: on wakeup the
    registers hold whatever [hw] says, the save area is in memory and
    keeps its content. *)
Definition power_cycle (hw : Z -> Z) (priv : imx8qm_acm_priv) : imx8qm_acm_priv :=
  {| reg := hw; regs := regs priv |}.

(** A multiplexer as [imx_clk_mux(name, reg, shift, width, parents,
    num_parents)] registers it; [mux_reg] is the offset from [base]. *)
Record clk_mux : Type := {
  mux_name : String.string;
  mux_reg : Z;
  mux_shift : Z;
  mux_width : Z;
  mux_parents : list String.string
}.

Definition aud_clk_sels : list String.string :=
  ["aud_rec_clk0_lpcg_clk";
   "aud_rec_clk1_lpcg_clk";
   "mlb_clk";
   "hdmi_rx_mclk";
   "ext_aud_mclk0";
   "ext_aud_mclk1";
   "esai0_rx_clk";
   "esai0_rx_hf_clk";
   "esai0_tx_clk";
   "esai0_tx_hf_clk";
   "esai1_rx_clk";
   "esai1_rx_hf_clk";
   "esai1_tx_clk";
   "esai1_tx_hf_clk";
   "spdif0_rx";
   "spdif1_rx";
   "sai0_rx_bclk";
   "sai0_tx_bclk";
   "sai1_rx_bclk";
   "sai1_tx_bclk";
   "sai2_rx_bclk";
   "sai3_rx_bclk";
   "sai4_rx_bclk"]%string.

Definition mclk_out_sels : list String.string :=
  ["aud_rec_clk0_lpcg_clk";
   "aud_rec_clk1_lpcg_clk";
   "mlb_clk";
   "hdmi_rx_mclk";
   "spdif0_rx";
   "spdif1_rx";
   "sai4_rx_bclk";
   "sai6_rx_bclk"]%string.

Definition sai_mclk_sels : list String.string :=
  ["aud_pll_div_clk0_lpcg_clk";
   "aud_pll_div_clk1_lpcg_clk";
   "acm_aud_clk0_sel";
   "acm_aud_clk1_sel"]%string.

Definition asrc_mux_clk_sels : list String.string :=
  ["sai4_rx_bclk";
   "sai5_tx_bclk";
   "dummy";
   "mlb_clk"]%string.

Definition esai_mclk_sels : list String.string :=
  ["aud_pll_div_clk0_lpcg_clk";
   "aud_pll_div_clk1_lpcg_clk";
   "acm_aud_clk0_sel";
   "acm_aud_clk1_sel"]%string.

Definition spdif_mclk_sels : list String.string :=
  ["aud_pll_div_clk0_lpcg_clk";
   "aud_pll_div_clk1_lpcg_clk";
   "acm_aud_clk0_sel";
   "acm_aud_clk1_sel"]%string.

Definition mqs_mclk_sels : list String.string :=
  ["aud_pll_div_clk0_lpcg_clk";
   "aud_pll_div_clk1_lpcg_clk";
   "acm_aud_clk0_sel";
   "acm_aud_clk1_sel"]%string.

(** The multiplexers [imx8qm_acm_clk_probe] registers, in program order. *)
Definition acm_muxes : list clk_mux :=
  [{| mux_name := "acm_aud_clk0_sel"%string; mux_reg := 0x000000;
      mux_shift := 0; mux_width := 5; mux_parents := aud_clk_sels |};
   {| mux_name := "acm_aud_clk1_sel"%string; mux_reg := 0x010000;
      mux_shift := 0; mux_width := 5; mux_parents := aud_clk_sels |};
   {| mux_name := "acm_mclkout0_sel"%string; mux_reg := 0x020000;
      mux_shift := 0; mux_width := 3; mux_parents := mclk_out_sels |};
   {| mux_name := "acm_mclkout1_sel"%string; mux_reg := 0x030000;
      mux_shift := 0; mux_width := 3; mux_parents := mclk_out_sels |};
   {| mux_name := "acm_asrc0_mclk_sel"%string; mux_reg := 0x040000;
      mux_shift := 0; mux_width := 2; mux_parents := asrc_mux_clk_sels |};
   {| mux_name := "acm_esai0_mclk_sel"%string; mux_reg := 0x060000;
      mux_shift := 0; mux_width := 2; mux_parents := esai_mclk_sels |};
   {| mux_name := "acm_esai1_mclk_sel"%string; mux_reg := 0x070000;
      mux_shift := 0; mux_width := 2; mux_parents := esai_mclk_sels |};
   {| mux_name := "acm_sai0_mclk_sel"%string; mux_reg := 0x0E0000;
      mux_shift := 0; mux_width := 2; mux_parents := sai_mclk_sels |};
   {| mux_name := "acm_sai1_mclk_sel"%string; mux_reg := 0x0F0000;
      mux_shift := 0; mux_width := 2; mux_parents := sai_mclk_sels |};
   {| mux_name := "acm_sai2_mclk_sel"%string; mux_reg := 0x100000;
      mux_shift := 0; mux_width := 2; mux_parents := sai_mclk_sels |};
   {| mux_name := "acm_sai3_mclk_sel"%string; mux_reg := 0x110000;
      mux_shift := 0; mux_width := 2; mux_parents := sai_mclk_sels |};
   {| mux_name := "acm_sai4_mclk_sel"%string; mux_reg := 0x120000;
      mux_shift := 0; mux_width := 2; mux_parents := sai_mclk_sels |};
   {| mux_name := "acm_sai5_mclk_sel"%string; mux_reg := 0x130000;
      mux_shift := 0; mux_width := 2; mux_parents := sai_mclk_sels |};
   {| mux_name := "acm_sai6_mclk_sel"%string; mux_reg := 0x140000;
      mux_shift := 0; mux_width := 2; mux_parents := sai_mclk_sels |};
   {| mux_name := "acm_sai7_mclk_sel"%string; mux_reg := 0x150000;
      mux_shift := 0; mux_width := 2; mux_parents := sai_mclk_sels |};
   {| mux_name := "acm_spdif0_mclk_sel"%string; mux_reg := 0x1A0000;
      mux_shift := 0; mux_width := 2; mux_parents := spdif_mclk_sels |};
   {| mux_name := "acm_spdif1_mclk_sel"%string; mux_reg := 0x1B0000;
      mux_shift := 0; mux_width := 2; mux_parents := spdif_mclk_sels |};
   {| mux_name := "acm_mqs_mclk_sel"%string; mux_reg := 0x1C0000;
      mux_shift := 0; mux_width := 2; mux_parents := mqs_mclk_sels |}].

(** The fixed-rate clocks [imx8qm_acm_clk_probe] registers (all at rate 0),
    in program order. *)
Definition acm_fixed_clks : list String.string :=
  ["ext_aud_mclk0";
   "ext_aud_mclk1";
   "esai0_rx_clk";
   "esai0_rx_hf_clk";
   "esai0_tx_clk";
   "esai0_tx_hf_clk";
   "esai1_rx_clk";
   "esai1_rx_hf_clk";
   "esai1_tx_clk";
   "esai1_tx_hf_clk";
   "spdif0_rx";
   "spdif1_rx";
   "sai0_rx_bclk";
   "sai0_tx_bclk";
   "sai1_rx_bclk";
   "sai1_tx_bclk";
   "sai2_rx_bclk";
   "sai3_rx_bclk";
   "sai4_rx_bclk";
   "sai5_tx_bclk";
   "sai6_rx_bclk";
   "hdmi_rx_mclk";
   "mlb_clk"]%string.

(** The platform device handed to the multiplexer's probe, with what
    each kernel service answers for it: whether the mapping and the
    three allocations succeed, the number of power domains
    [of_count_phandle_with_args] reports (negative for an error), what
    [dev_pm_domain_attach_by_id] and [device_link_add] return for the
    domain of each index (a NULL pointer is not an error pointer and
    counts as [Valid] here, as it does for [IS_ERR]), and the result of
    [of_clk_add_provider]. *)
Record acm_platform : Type := {
  acm_devm_ioremap : bool;
  acm_devm_kzalloc_priv : bool;
  acm_kzalloc_clk_data : bool;
  acm_kcalloc_clks : bool;
  acm_num_domains : Z;
  acm_pm_domain_attach_by_id : Z -> err_ptr;
  acm_device_link_add : Z -> err_ptr;
  acm_of_clk_add_provider : Z
}.

(** What the multiplexer's probe does to the device model, in program
    order; the warnings for clocks that failed to register are left
    out. *)
Inductive acm_action : Type :=
| AcmSetDrvdata
| AcmAttachDomain (i : Z)
| AcmLinkDomain (i : Z)
| AcmClkFixed (name : String.string)
| AcmClkMux (m : clk_mux)
| AcmAddProvider.

(** The loop over the power domains, from index [i] with [n] iterations
    left: the error it returns early with, if any, and the log. *)
Fixpoint acm_attach_domains (pdev : acm_platform) (n : nat) (i : Z)
  (log : list acm_action) : option Z * list acm_action :=
  match n with
  | O => (None, log)
  | S n' =>
      let log := log ++ [AcmAttachDomain i] in
      match acm_pm_domain_attach_by_id pdev i with
      | ErrPtr e => (Some (Z.neg e), log)
      | Valid =>
          let log := log ++ [AcmLinkDomain i] in
          match acm_device_link_add pdev i with
          | ErrPtr e => (Some (Z.neg e), log)
          | Valid => acm_attach_domains pdev n' (i + 1) log
          end
      end
  end.

(** [imx8qm_acm_clk_probe]: its return value and what it did. *)
Definition imx8qm_acm_clk_probe (pdev : acm_platform) : Z * list acm_action :=
  if negb (acm_devm_ioremap pdev) then (- ENOMEM, []) else
  if negb (acm_devm_kzalloc_priv pdev) then (- ENOMEM, []) else
  let log := [AcmSetDrvdata] in
  if negb (acm_kzalloc_clk_data pdev) then (- ENOMEM, log) else
  if negb (acm_kcalloc_clks pdev) then (- ENOMEM, log) else
  match acm_attach_domains pdev (Z.to_nat (acm_num_domains pdev)) 0 log with
  | (Some error, log) => (error, log)
  | (None, log) =>
      let log := log ++ map AcmClkFixed acm_fixed_clks in
      let log := log ++ map AcmClkMux acm_muxes in
      (acm_of_clk_add_provider pdev, log ++ [AcmAddProvider])
  end.

(** The attach and link actions for the domains [i], [i+1], ... ([n] of
    them). *)
Fixpoint acm_domain_actions (n : nat) (i : Z) : list acm_action :=
  match n with
  | O => []
  | S n' => AcmAttachDomain i :: AcmLinkDomain i :: acm_domain_actions n' (i + 1)
  end.

Definition acm_registers (a : acm_action) : bool :=
  match a with
  | AcmClkFixed _ | AcmClkMux _ | AcmAddProvider => true
  | _ => false
  end.

(** A platform with two power domains, the second of which cannot be
    linked ([-ENODEV]). *)
Definition sample_acm_platform : acm_platform :=
  {| acm_devm_ioremap := true; acm_devm_kzalloc_priv := true;
     acm_kzalloc_clk_data := true; acm_kcalloc_clks := true;
     acm_num_domains := 2;
     acm_pm_domain_attach_by_id := fun _ => Valid;
     acm_device_link_add := fun i => if i =? 1 then ErrPtr 19 else Valid;
     acm_of_clk_add_provider := 0 |}.

(** The same platform with both domains in order. *)
Definition sample_acm_platform_ok : acm_platform :=
  {| acm_devm_ioremap := true; acm_devm_kzalloc_priv := true;
     acm_kzalloc_clk_data := true; acm_kcalloc_clks := true;
     acm_num_domains := 2;
     acm_pm_domain_attach_by_id := fun _ => Valid;
     acm_device_link_add := fun _ => Valid;
     acm_of_clk_add_provider := 0 |}.

(** The slots of the save area and the offsets they are paired with in
    [imx8qm_acm_suspend] and [imx8qm_acm_resume]. *)
Definition acm_saved : list (nat * Z) :=
  [(0%nat, 0x000000);
   (1%nat, 0x010000);
   (2%nat, 0x020000);
   (3%nat, 0x030000);
   (4%nat, 0x040000);
   (6%nat, 0x060000);
   (7%nat, 0x070000);
   (14%nat, 0x0E0000);
   (15%nat, 0x0F0000);
   (16%nat, 0x100000);
   (17%nat, 0x110000);
   (18%nat, 0x120000);
   (19%nat, 0x130000);
   (20%nat, 0x140000);
   (21%nat, 0x150000);
   (26%nat, 0x1A0000);
   (27%nat, 0x1B0000);
   (28%nat, 0x1C0000)].

(** A bank whose register at each offset holds the offset itself plus
    one, with a cleared save area. *)
Definition sample_acm : imx8qm_acm_priv :=
  {| reg := fun o => o + 1; regs := repeat 0 32 |}.

(* ================================================================== *)
(** * Bit-level facts about the register values *)
(* ================================================================== *)

Arguments u32 : simpl never.
Arguments wakeup_enable_val : simpl never.
Arguments wakeup_disable_val : simpl never.

Section RegisterValues.

Lemma u32_land_ones x : u32 x = Z.land x (Z.ones 32).
Proof. unfold u32. now rewrite Z.land_ones. Qed.

Lemma u32_small x : is_u32 x -> u32 x = x.
Proof. intros H. apply Z.mod_small. exact H. Qed.


(** The named constants, as numbers. *)
Lemma wakeup_host_bits_value : wakeup_host_bits = 0x80000029.
Proof. reflexivity. Qed.

Lemma wakeup_device_bits_value : wakeup_device_bits = 0x80000012.
Proof. reflexivity. Qed.

Lemma wakeup_all_bits_value : wakeup_all_bits = 0x8000003F.
Proof. reflexivity. Qed.

Lemma wakeup_kept_bits_value : wakeup_kept_bits = 0x7FFFFFC0.
Proof. reflexivity. Qed.

(** A single flag tests true at its own position only. *)
Lemma BIT_spec k n : 0 <= k < 64 -> Z.testbit (BIT k) n = (k =? n).
Proof.
  intros Hk. unfold BIT, ulong.
  rewrite Z.shiftl_1_l, Z.mod_small.
  - apply Z.pow2_bits_eqb. lia.
  - split; [apply Z.pow_nonneg; lia|].
    apply Z.pow_lt_mono_r; unfold BITS_PER_LONG; lia.
Qed.

(** Truncation to 32 bits distributes over the OR of the arm path. *)
Lemma u32_lor v p : is_u32 p -> u32 (Z.lor v p) = Z.lor (u32 v) p.
Proof.
  intros Hp. rewrite !u32_land_ones, Z.land_lor_distr_l.
  rewrite <- (u32_land_ones p), (u32_small p Hp). reflexivity.
Qed.

Lemma wakeup_host_bits_u32 : is_u32 wakeup_host_bits.
Proof. unfold is_u32. rewrite wakeup_host_bits_value. lia. Qed.

Lemma wakeup_device_bits_u32 : is_u32 wakeup_device_bits.
Proof. unfold is_u32. rewrite wakeup_device_bits_value. lia. Qed.

(** What disarm computes: the value read, masked to bits 30..6. *)
Lemma wakeup_disable_val_spec v :
  wakeup_disable_val v = Z.land v wakeup_kept_bits.
Proof.
  unfold wakeup_disable_val, wakeup_kept_bits.
  now rewrite u32_land_ones, Z.land_assoc.
Qed.

(** What arm computes on a 32-bit value. *)
Lemma wakeup_enable_val_spec dwc v :
  is_u32 v ->
  wakeup_enable_val dwc v =
    match xhci dwc with
    | Some _ => Z.lor v wakeup_host_bits
    | None => if current_dr_role dwc =? DWC3_GCTL_PRTCAP_DEVICE
              then Z.lor v wakeup_device_bits else v
    end.
Proof.
  intros Hv. unfold wakeup_enable_val.
  destruct (xhci dwc).
  - now rewrite (u32_lor _ _ wakeup_host_bits_u32), (u32_small v Hv).
  - destruct (current_dr_role dwc =? DWC3_GCTL_PRTCAP_DEVICE); [|reflexivity].
    now rewrite (u32_lor _ _ wakeup_device_bits_u32), (u32_small v Hv).
Qed.

(** Masking an armed value with a field [m] that lies within 32 bits. *)
Lemma wakeup_enable_val_land dwc v m :
  Z.land (Z.ones 32) m = m ->
  Z.land (wakeup_enable_val dwc v) m =
    match xhci dwc with
    | Some _ => Z.lor (Z.land v m) (Z.land wakeup_host_bits m)
    | None => if current_dr_role dwc =? DWC3_GCTL_PRTCAP_DEVICE
              then Z.lor (Z.land v m) (Z.land wakeup_device_bits m)
              else Z.land v m
    end.
Proof.
  intros Hm. unfold wakeup_enable_val.
  assert (E : forall p, Z.land (u32 (Z.lor v p)) m
                        = Z.lor (Z.land v m) (Z.land p m)).
  { intros p. rewrite u32_land_ones, <- Z.land_assoc, Hm.
    apply Z.land_lor_distr_l. }
  destruct (xhci dwc); [apply E|].
  destruct (current_dr_role dwc =? DWC3_GCTL_PRTCAP_DEVICE);
    [apply E|reflexivity].
Qed.



End RegisterValues.

(* ================================================================== *)
(** * Running the routines *)
(* ================================================================== *)

Section Runs.

Variable s : dwc3_imx8mp.

Lemma performed_trace {A : Type} (m : drv A) (l : list action) :
  trace (exec m s) = trace s ++ l -> performed m s = l.
Proof.
  intros H. unfold performed. rewrite H.
  rewrite skipn_app, skipn_all, Nat.sub_diag. reflexivity.
Qed.

Lemma dwc_imx8mp_wakeup_enable_run :
  dwc_imx8mp_wakeup_enable s =
    (tt, set_wakeup_ctrl
           (wakeup_enable_val (dwc3_drvdata s) (wakeup_ctrl s))
           (log (Writel (wakeup_enable_val (dwc3_drvdata s) (wakeup_ctrl s))
                        USB_WAKEUP_CTRL)
                (log (Readl USB_WAKEUP_CTRL (wakeup_ctrl s)) s))).
Proof. reflexivity. Qed.

Lemma dwc_imx8mp_wakeup_disable_run :
  dwc_imx8mp_wakeup_disable s =
    (tt, set_wakeup_ctrl
           (wakeup_disable_val (wakeup_ctrl s))
           (log (Writel (wakeup_disable_val (wakeup_ctrl s)) USB_WAKEUP_CTRL)
                (log (Readl USB_WAKEUP_CTRL (wakeup_ctrl s)) s))).
Proof. reflexivity. Qed.

Lemma wakeup_enable_ctrl :
  wakeup_ctrl (exec dwc_imx8mp_wakeup_enable s)
  = wakeup_enable_val (dwc3_drvdata s) (wakeup_ctrl s).
Proof. reflexivity. Qed.

Lemma wakeup_disable_ctrl :
  wakeup_ctrl (exec dwc_imx8mp_wakeup_disable s)
  = wakeup_disable_val (wakeup_ctrl s).
Proof. reflexivity. Qed.

Lemma wakeup_enable_performed :
  performed dwc_imx8mp_wakeup_enable s =
    [Readl USB_WAKEUP_CTRL (wakeup_ctrl s);
     Writel (wakeup_enable_val (dwc3_drvdata s) (wakeup_ctrl s))
            USB_WAKEUP_CTRL].
Proof.
  apply performed_trace. unfold exec.
  rewrite dwc_imx8mp_wakeup_enable_run. cbn.
  now rewrite <- app_assoc.
Qed.

Lemma wakeup_disable_performed :
  performed dwc_imx8mp_wakeup_disable s =
    [Readl USB_WAKEUP_CTRL (wakeup_ctrl s);
     Writel (wakeup_disable_val (wakeup_ctrl s)) USB_WAKEUP_CTRL].
Proof.
  apply performed_trace. unfold exec.
  rewrite dwc_imx8mp_wakeup_disable_run. cbn.
  now rewrite <- app_assoc.
Qed.

End Runs.

(** What a suspended instance does on an interrupt. *)
Lemma dwc3_imx8mp_interrupt_suspended s :
  pm_suspended s = true ->
  dwc3_imx8mp_interrupt s =
    (IRQ_HANDLED,
     let s' := exec dwc_imx8mp_wakeup_disable s in
     let dwc := dwc3_drvdata s in
     match current_dr_role dwc =? DWC3_GCTL_PRTCAP_HOST, xhci dwc with
     | true, Some x => log (PmRuntimeResume x) s'
     | _, _ =>
         if current_dr_role dwc =? DWC3_GCTL_PRTCAP_DEVICE
         then log (PmRuntimeResume (dwc_dev dwc)) s' else s'
     end).
Proof.
  intros H. unfold dwc3_imx8mp_interrupt, bind, platform_get_drvdata, get.
  cbv beta iota. rewrite H. cbn [negb]. cbv beta iota.
  rewrite dwc_imx8mp_wakeup_disable_run. unfold exec.
  rewrite dwc_imx8mp_wakeup_disable_run. cbn [snd]. cbv zeta.
  destruct (current_dr_role (dwc3_drvdata s) =? DWC3_GCTL_PRTCAP_HOST),
           (xhci (dwc3_drvdata s)),
           (current_dr_role (dwc3_drvdata s) =? DWC3_GCTL_PRTCAP_DEVICE);
    reflexivity.
Qed.

Lemma dwc3_imx8mp_suspend_suspended msg s :
  pm_suspended s = true -> dwc3_imx8mp_suspend msg s = (0, s).
Proof.
  intros H. unfold dwc3_imx8mp_suspend, bind, get. cbv beta iota.
  now rewrite H.
Qed.

Lemma dwc3_imx8mp_suspend_active msg s :
  pm_suspended s = false ->
  dwc3_imx8mp_suspend msg s =
    (0, set_pm_suspended true
          (exec (clk_disable_unprepare BusClk)
             (exec (when (PMSG_IS_AUTO msg || may_wakeup s)
                         dwc_imx8mp_wakeup_enable) s))).
Proof.
  intros H. unfold dwc3_imx8mp_suspend, bind, get, device_may_wakeup.
  cbv beta iota. rewrite H. unfold get, exec. cbv beta iota.
  destruct (when _ _ s) as [[] s1]. cbn [snd].
  destruct (clk_disable_unprepare BusClk s1) as [[] s2]. reflexivity.
Qed.

Lemma dwc3_imx8mp_resume_active msg s :
  pm_suspended s = false -> dwc3_imx8mp_resume msg s = (0, s).
Proof.
  intros H. unfold dwc3_imx8mp_resume, bind, get. cbv beta iota.
  now rewrite H.
Qed.

Lemma dwc3_imx8mp_resume_suspended msg s :
  pm_suspended s = true ->
  dwc3_imx8mp_resume msg s =
    (enable_ret (bus_clk s),
     exec dwc_imx8mp_wakeup_disable
       (exec (clk_prepare_enable BusClk) (set_pm_suspended false s))).
Proof.
  intros H. unfold dwc3_imx8mp_resume, bind, get. cbv beta iota.
  rewrite H. cbn [negb]. unfold modify, exec.
  destruct (enable_ret (bus_clk s) =? 0) eqn:E;
    unfold clk_prepare_enable, bind, get, modify, when; cbn; rewrite E;
    reflexivity.
Qed.

(* ================================================================== *)
(** * WakeupSourceConfigurator: arm and disarm *)
(* ================================================================== *)

Lemma is_u32_0 : is_u32 0.
Proof. unfold is_u32. split; [discriminate | reflexivity]. Defined.

Lemma wakeup_host_bits_testbit n :
  Z.testbit wakeup_host_bits n = (n =? 31) || (n =? 5) || (n =? 3) || (n =? 0).
Proof.
  unfold wakeup_host_bits, USB_WAKEUP_EN, USB_WAKEUP_SS_CONN,
    USB_WAKEUP_U3_EN, USB_WAKEUP_DPDM_EN.
  rewrite !Z.lor_spec, !BIT_spec by lia.
  now rewrite (Z.eqb_sym 31), (Z.eqb_sym 5), (Z.eqb_sym 3), (Z.eqb_sym 0).
Qed.

Lemma wakeup_device_bits_testbit n :
  Z.testbit wakeup_device_bits n = (n =? 31) || (n =? 1) || (n =? 4).
Proof.
  unfold wakeup_device_bits, USB_WAKEUP_EN, USB_WAKEUP_VBUS_EN,
    USB_WAKEUP_VBUS_SRC_SESS_VAL.
  rewrite !Z.lor_spec, !BIT_spec by lia.
  now rewrite (Z.eqb_sym 31), (Z.eqb_sym 1), (Z.eqb_sym 4).
Qed.

(** C1, as the claim has it, fails: arming for a host on a register that
    already has the id-change bit set leaves that bit set, so the
    register does not hold exactly the host bits. *)
Lemma wakeup_enable_host_not_exact :
  is_u32 (wakeup_ctrl host_glue_id_set) /\
  wakeup_ctrl (exec dwc_imx8mp_wakeup_enable host_glue_id_set)
    = Z.lor wakeup_host_bits USB_WAKEUP_ID_EN /\
  wakeup_ctrl (exec dwc_imx8mp_wakeup_enable host_glue_id_set)
    <> wakeup_host_bits.
Proof.
  split; [|split].
  - vm_compute. split; [discriminate | reflexivity].
  - vm_compute. reflexivity.
  - vm_compute. discriminate.
Qed.

(** C1 (amended): for every prior 32-bit content [v] of the control
    register, arming with a host child present leaves the register at
    [v] with global-enable (31), superspeed-connect-change (5), U3-exit
    (3) and dp/dm-change (0) set and every other bit as it was; arming
    with no host child and role Device leaves it at [v] with
    global-enable (31), vbus-change (1) and vbus-source-select (4) set
    and every other bit as it was.  From the quiescent all-zero image
    the register then holds exactly those bits. *)
Theorem wakeup_enable_role_bits s :
  is_u32 (wakeup_ctrl s) ->
  let dwc := dwc3_drvdata s in
  let v := wakeup_ctrl s in
  let r := wakeup_ctrl (exec dwc_imx8mp_wakeup_enable s) in
  (xhci dwc <> None ->
     (forall n, Z.testbit r n =
                Z.testbit v n || ((n =? 31) || (n =? 5) || (n =? 3) || (n =? 0)))
     /\ (v = 0 -> r = 0x80000029)) /\
  (xhci dwc = None -> current_dr_role dwc = DWC3_GCTL_PRTCAP_DEVICE ->
     (forall n, Z.testbit r n =
                Z.testbit v n || ((n =? 31) || (n =? 1) || (n =? 4)))
     /\ (v = 0 -> r = 0x80000012)).
Proof.
  intros Hv dwc v r. subst r. rewrite wakeup_enable_ctrl.
  fold dwc v. rewrite (wakeup_enable_val_spec dwc v Hv). split.
  - intros Hx. destruct (xhci dwc); [|congruence]. split.
    + intros n. now rewrite Z.lor_spec, wakeup_host_bits_testbit.
    + intros ->. reflexivity.
  - intros -> ->. cbn [Z.eqb DWC3_GCTL_PRTCAP_DEVICE Pos.eqb]. split.
    + intros n. now rewrite Z.lor_spec, wakeup_device_bits_testbit.
    + intros ->. reflexivity.
Qed.

Lemma wakeup_enable_role_bits_witness :
  is_u32 0 /\
  wakeup_ctrl (exec dwc_imx8mp_wakeup_enable host_glue) = 0x80000029.
Proof.
  split; [exact is_u32_0|].
  apply (wakeup_enable_role_bits host_glue is_u32_0).
  - discriminate.
  - reflexivity.
Defined.

(** C5, as the claim has it, fails: with bit 6 set beforehand, arming
    and then disarming leaves bit 6 set, so the register is not zero. *)
Lemma wakeup_enable_disable_not_zero :
  is_u32 (wakeup_ctrl device_glue_bit6) /\
  wakeup_ctrl (exec (dwc_imx8mp_wakeup_enable ;; dwc_imx8mp_wakeup_disable)
                    device_glue_bit6) = BIT 6 /\
  wakeup_ctrl (exec (dwc_imx8mp_wakeup_enable ;; dwc_imx8mp_wakeup_disable)
                    device_glue_bit6) <> 0.
Proof.
  split; [|split].
  - vm_compute. split; [discriminate | reflexivity].
  - vm_compute. reflexivity.
  - vm_compute. discriminate.
Qed.

(** C5 (amended): for every host child, every role code and every prior
    content [v] of the control register, arming and then disarming leaves
    the register at [v] restricted to bits 30..6: global-enable and the
    six source bits are clear and every other bit of the 32 is as it was
    before.  The register is therefore the all-zero quiescent image
    exactly when [v] has no bit set among 30..6. *)
Theorem wakeup_enable_disable_round_trip s :
  let v := wakeup_ctrl s in
  let r := wakeup_ctrl (exec (dwc_imx8mp_wakeup_enable ;;
                              dwc_imx8mp_wakeup_disable) s) in
  r = Z.land v 0x7FFFFFC0 /\
  Z.land r (Z.lor USB_WAKEUP_EN USB_WAKEUP_EN_MASK) = 0 /\
  (r = 0 <-> Z.land v 0x7FFFFFC0 = 0).
Proof.
  intros v r.
  assert (Hr : r = Z.land v 0x7FFFFFC0).
  { subst r. unfold exec, bind.
    rewrite dwc_imx8mp_wakeup_enable_run, dwc_imx8mp_wakeup_disable_run.
    cbn [snd wakeup_ctrl set_wakeup_ctrl]. fold v.
    rewrite wakeup_disable_val_spec, wakeup_kept_bits_value.
    rewrite wakeup_enable_val_land by reflexivity.
    destruct (xhci (dwc3_drvdata s)).
    - change (Z.land wakeup_host_bits 0x7FFFFFC0) with 0.
      apply Z.lor_0_r.
    - destruct (_ =? _); [|reflexivity].
      change (Z.land wakeup_device_bits 0x7FFFFFC0) with 0.
      apply Z.lor_0_r. }
  rewrite Hr. split; [reflexivity|]. split; [|reflexivity].
  rewrite <- Z.land_assoc.
  change (Z.land 0x7FFFFFC0 (Z.lor USB_WAKEUP_EN USB_WAKEUP_EN_MASK)) with 0.
  apply Z.land_0_r.
Qed.

(** C6, as the claim has it, fails: with no host child and a role that
    is not Device, arming still writes the control register (the value
    it has just read). *)
Lemma wakeup_enable_norole_writes :
  xhci (dwc3_drvdata norole_glue) = None /\
  current_dr_role (dwc3_drvdata norole_glue) <> DWC3_GCTL_PRTCAP_DEVICE /\
  performed dwc_imx8mp_wakeup_enable norole_glue
    = [Readl USB_WAKEUP_CTRL 0; Writel 0 USB_WAKEUP_CTRL] /\
  existsb is_write (performed dwc_imx8mp_wakeup_enable norole_glue) = true.
Proof.
  split; [reflexivity|]. split; [discriminate|].
  split; reflexivity.
Qed.

(** C6 (amended): arming when no host child handle exists and the
    current role is not Device reads the control register once and
    writes the value read back to it; the register content, the clocks
    and the suspended flag are as before, and nothing else is done. *)
Theorem wakeup_enable_norole_writes_back s :
  xhci (dwc3_drvdata s) = None ->
  current_dr_role (dwc3_drvdata s) <> DWC3_GCTL_PRTCAP_DEVICE ->
  performed dwc_imx8mp_wakeup_enable s
    = [Readl USB_WAKEUP_CTRL (wakeup_ctrl s);
       Writel (wakeup_ctrl s) USB_WAKEUP_CTRL] /\
  exists t, exec dwc_imx8mp_wakeup_enable s =
    {| dev := dev s; dwc3_drvdata := dwc3_drvdata s;
       wakeup_ctrl := wakeup_ctrl s;
       bus_clk := bus_clk s; sleep_clk := sleep_clk s; irq := irq s;
       pm_suspended := pm_suspended s; may_wakeup := may_wakeup s;
       trace := t |}.
Proof.
  intros Hx Hr.
  assert (E : wakeup_enable_val (dwc3_drvdata s) (wakeup_ctrl s) = wakeup_ctrl s).
  { unfold wakeup_enable_val. rewrite Hx.
    apply Z.eqb_neq in Hr. now rewrite Hr. }
  split.
  - now rewrite wakeup_enable_performed, E.
  - unfold exec. rewrite dwc_imx8mp_wakeup_enable_run, E.
    eexists. reflexivity.
Qed.

Lemma wakeup_enable_norole_writes_back_witness :
  xhci (dwc3_drvdata norole_glue) = None /\
  current_dr_role (dwc3_drvdata norole_glue) <> DWC3_GCTL_PRTCAP_DEVICE /\
  performed dwc_imx8mp_wakeup_enable norole_glue
    = [Readl USB_WAKEUP_CTRL (wakeup_ctrl norole_glue);
       Writel (wakeup_ctrl norole_glue) USB_WAKEUP_CTRL].
Proof.
  assert (Hx : xhci (dwc3_drvdata norole_glue) = None) by reflexivity.
  assert (Hr : current_dr_role (dwc3_drvdata norole_glue)
               <> DWC3_GCTL_PRTCAP_DEVICE) by discriminate.
  split; [exact Hx|]. split; [exact Hr|].
  exact (proj1 (wakeup_enable_norole_writes_back norole_glue Hx Hr)).
Defined.

Lemma wakeup_all_bits_within_u32 :
  Z.land (Z.ones 32) wakeup_all_bits = wakeup_all_bits.
Proof. reflexivity. Qed.

(** C9: when a host child handle exists, arming ORs the Host pattern
    {global-enable, superspeed-connect-change, U3-exit, dp/dm-change}
    into the register whatever the current role is; when none exists it
    ORs the Device pattern in if the current role is Device.  On a
    register whose wakeup field (global-enable and the six source bits)
    is clear, the field after arming is therefore the Host pattern
    exactly when a host child handle exists, and the Device pattern
    exactly when no host child handle exists and the current role is
    Device. *)
Theorem wakeup_enable_pattern_selection s :
  let dwc := dwc3_drvdata s in
  let v := wakeup_ctrl s in
  let r := wakeup_ctrl (exec dwc_imx8mp_wakeup_enable s) in
  let host := Z.lor (Z.lor (Z.lor USB_WAKEUP_EN USB_WAKEUP_SS_CONN)
                           USB_WAKEUP_U3_EN) USB_WAKEUP_DPDM_EN in
  let device := Z.lor (Z.lor USB_WAKEUP_EN USB_WAKEUP_VBUS_EN)
                      USB_WAKEUP_VBUS_SRC_SESS_VAL in
  (xhci dwc <> None -> r = u32 (Z.lor v host)) /\
  (xhci dwc = None -> current_dr_role dwc = DWC3_GCTL_PRTCAP_DEVICE ->
     r = u32 (Z.lor v device)) /\
  (Z.land v wakeup_all_bits = 0 ->
     (Z.land r wakeup_all_bits = host <-> xhci dwc <> None) /\
     (Z.land r wakeup_all_bits = device <->
        xhci dwc = None /\ current_dr_role dwc = DWC3_GCTL_PRTCAP_DEVICE)).
Proof.
  intros dwc v r host device. subst r. rewrite wakeup_enable_ctrl.
  fold dwc v. split; [|split].
  - unfold wakeup_enable_val. destruct (xhci dwc); [reflexivity|congruence].
  - intros Hx Hd. unfold wakeup_enable_val. rewrite Hx, Hd. reflexivity.
  - intros Hv.
    rewrite (wakeup_enable_val_land _ _ _ wakeup_all_bits_within_u32), Hv.
    destruct (xhci dwc) as [x|].
    + change (Z.lor 0 (Z.land wakeup_host_bits wakeup_all_bits))
        with 0x80000029.
      split; split; try discriminate; try reflexivity.
      intros [? _]. discriminate.
    + destruct (current_dr_role dwc =? DWC3_GCTL_PRTCAP_DEVICE) eqn:E.
      * apply Z.eqb_eq in E.
        change (Z.lor 0 (Z.land wakeup_device_bits wakeup_all_bits))
          with 0x80000012.
        split; split; try discriminate; try congruence; auto.
      * apply Z.eqb_neq in E.
        split; split; try discriminate; try congruence.
        intros [_ ?]. contradiction.
Qed.

(** The theorem at a host child that is present while the role is
    Device: the Host pattern is what ends up in the register. *)
Lemma wakeup_enable_pattern_selection_witness :
  wakeup_ctrl (exec dwc_imx8mp_wakeup_enable host_child_device_role_glue)
  = 0x80000029.
Proof.
  rewrite (proj1 (wakeup_enable_pattern_selection host_child_device_role_glue)).
  - reflexivity.
  - discriminate.
Defined.

(* ------------------------------------------------------------------ *)
(** ** The register invariant over arm/disarm sequences *)
(* ------------------------------------------------------------------ *)

Ltac in_images :=
  unfold armed_images; cbn [In];
  first [ left; reflexivity
        | right; left; reflexivity
        | right; right; left; reflexivity
        | right; right; right; left; reflexivity ].

Lemma armed_images_enable dwc r :
  In r armed_images -> In (wakeup_enable_val dwc r) armed_images.
Proof.
  unfold wakeup_enable_val. intros Hr.
  destruct (xhci dwc);
    [|destruct (current_dr_role dwc =? DWC3_GCTL_PRTCAP_DEVICE);
      [|exact Hr]];
    cbn [In armed_images] in Hr;
    destruct Hr as [<-|[<-|[<-|[<-|[]]]]]; in_images.
Qed.

Lemma armed_images_disable r :
  In r armed_images -> wakeup_disable_val r = 0.
Proof.
  intros Hr. cbn [In armed_images] in Hr.
  destruct Hr as [<-|[<-|[<-|[<-|[]]]]]; reflexivity.
Qed.

Lemma armed_images_enable_implies r :
  In r armed_images ->
  Z.land r USB_WAKEUP_EN_MASK <> 0 -> Z.testbit r 31 = true.
Proof.
  intros Hr. cbn [In armed_images] in Hr.
  destruct Hr as [<-|[<-|[<-|[<-|[]]]]]; intros H;
    [exfalso; apply H|..]; reflexivity.
Qed.

Lemma exec_bind {A B : Type} (m : drv A) (k : drv B) s :
  exec (m ;; k) s = exec k (exec m s).
Proof. unfold exec, bind. now destruct (m s). Qed.

Lemma run_ops_cons o ops s :
  exec (run_ops (o :: ops)) s = exec (run_ops ops) (exec (run_op o) s).
Proof. apply exec_bind. Qed.

Lemma run_ops_armed_images ops : forall s,
  In (wakeup_ctrl s) armed_images ->
  In (wakeup_ctrl (exec (run_ops ops) s)) armed_images.
Proof.
  induction ops as [|o ops IH]; intros s Hs.
  - exact Hs.
  - rewrite run_ops_cons.
    apply IH. destruct o as [dwc|].
    + change (wakeup_ctrl (exec (run_op (Arm dwc)) s))
        with (wakeup_enable_val dwc (wakeup_ctrl s)).
      now apply armed_images_enable.
    + change (wakeup_ctrl (exec (run_op Disarm) s))
        with (wakeup_disable_val (wakeup_ctrl s)).
      rewrite (armed_images_disable _ Hs). in_images.
Qed.

(** C7: in every control-register state reached from the quiescent
    all-zero image by a sequence of arm operations (each for whatever
    host child and role the controller then has) and disarm operations,
    the global enable bit (31) is set whenever any of the six source
    bits is set; and a disarm, which clears the global enable bit,
    leaves all six source bits clear as well. *)
Theorem wakeup_ctrl_invariant s ops :
  wakeup_ctrl s = 0 ->
  let r := wakeup_ctrl (exec (run_ops ops) s) in
  let r' := wakeup_ctrl (exec (run_ops (ops ++ [Disarm])) s) in
  (Z.land r USB_WAKEUP_EN_MASK <> 0 -> Z.testbit r 31 = true) /\
  Z.testbit r' 31 = false /\ Z.land r' USB_WAKEUP_EN_MASK = 0.
Proof.
  intros Hs r r'.
  assert (Hr : In r armed_images).
  { apply run_ops_armed_images. rewrite Hs. in_images. }
  split; [now apply armed_images_enable_implies|].
  assert (E : r' = 0).
  { subst r' r. clear Hs. revert s Hr.
    induction ops as [|o ops IH]; intros s Hr.
    - change (wakeup_ctrl (exec (run_ops ([] ++ [Disarm])) s))
        with (wakeup_disable_val (wakeup_ctrl s)).
      now apply armed_images_disable.
    - rewrite <- app_comm_cons, run_ops_cons.
      apply IH. rewrite <- run_ops_cons. exact Hr. }
  rewrite E. split; reflexivity.
Qed.

Lemma wakeup_ctrl_invariant_witness :
  wakeup_ctrl host_glue = 0 /\
  Z.testbit (wakeup_ctrl (exec (run_ops [Arm (dwc3_drvdata device_glue);
                                         Arm (dwc3_drvdata host_glue)])
                               host_glue)) 31 = true.
Proof.
  split; [reflexivity|].
  apply (wakeup_ctrl_invariant host_glue
           [Arm (dwc3_drvdata device_glue); Arm (dwc3_drvdata host_glue)]
           eq_refl).
  vm_compute. discriminate.
Defined.

(* ================================================================== *)
(** * WakeupEventDispatcher: the interrupt handler *)
(* ================================================================== *)

Lemma performed_nothing {A : Type} (m : drv A) s :
  exec m s = s -> performed m s = [].
Proof. intros H. unfold performed. rewrite H. apply skipn_all. Qed.

Lemma wakeup_disable_trace s :
  trace (exec dwc_imx8mp_wakeup_disable s)
  = trace s ++ performed dwc_imx8mp_wakeup_disable s.
Proof.
  rewrite wakeup_disable_performed. unfold exec.
  rewrite dwc_imx8mp_wakeup_disable_run. cbn.
  now rewrite <- app_assoc.
Qed.

Lemma log_all_trace l : forall s, trace (log_all l s) = trace s ++ l.
Proof.
  induction l as [|a l IH]; intros s; cbn [log_all].
  - now rewrite app_nil_r.
  - rewrite IH. cbn [trace log]. now rewrite <- app_assoc.
Qed.

Lemma log_all_wakeup_ctrl l : forall s,
  wakeup_ctrl (log_all l s) = wakeup_ctrl s.
Proof.
  induction l as [|a l IH]; intros s; [reflexivity|].
  cbn [log_all]. now rewrite IH.
Qed.

Lemma log_all_pm_suspended l : forall s,
  pm_suspended (log_all l s) = pm_suspended s.
Proof.
  induction l as [|a l IH]; intros s; [reflexivity|].
  cbn [log_all]. now rewrite IH.
Qed.

Lemma dwc3_imx8mp_interrupt_suspended_resumes s :
  pm_suspended s = true ->
  dwc3_imx8mp_interrupt s =
    (IRQ_HANDLED,
     log_all (map PmRuntimeResume (interrupt_resumes (dwc3_drvdata s)))
             (exec dwc_imx8mp_wakeup_disable s)).
Proof.
  intros Hs. rewrite (dwc3_imx8mp_interrupt_suspended s Hs). cbv zeta.
  unfold interrupt_resumes.
  destruct (current_dr_role (dwc3_drvdata s) =? DWC3_GCTL_PRTCAP_HOST),
           (xhci (dwc3_drvdata s)),
           (current_dr_role (dwc3_drvdata s) =? DWC3_GCTL_PRTCAP_DEVICE);
    reflexivity.
Qed.

(** What the disarm leaves in the register: the value read with the
    global enable bit (31) and the six source bits (5..0) cleared. *)
Lemma wakeup_disable_val_disarmed v :
  wakeup_disable_val v = Z.land v 0x7FFFFFC0 /\
  Z.testbit (wakeup_disable_val v) 31 = false /\
  Z.land (wakeup_disable_val v) USB_WAKEUP_EN_MASK = 0.
Proof.
  rewrite wakeup_disable_val_spec, wakeup_kept_bits_value.
  split; [reflexivity|]. split.
  - rewrite Z.land_spec.
    change (Z.testbit 0x7FFFFFC0 31) with false. apply andb_false_r.
  - rewrite <- Z.land_assoc.
    change (Z.land 0x7FFFFFC0 USB_WAKEUP_EN_MASK) with 0. apply Z.land_0_r.
Qed.

(** C2: on an interrupt delivered while the suspended flag is true the
    handler first disarms the wakeup source, whatever the role: it reads
    the control register once and writes the value read back with the
    global enable bit (31) and the six source bits (5..0) cleared, so
    that the register ends with global enable and every source bit
    clear and its other bits as before.  After the disarm it issues
    only resume requests: one to the host child when the role is Host
    and a host child handle exists, one to the controller (peripheral
    stack) when the role is Device, none when the role is Host with no
    host child handle or when the role is neither Host nor Device.  The
    interrupt is reported handled.  (A request is recorded as issued;
    the resume the PM core runs in answer to it is an event of its
    own.) *)
Theorem interrupt_while_suspended s :
  pm_suspended s = true ->
  let dwc := dwc3_drvdata s in
  let v := wakeup_ctrl s in
  let s' := exec dwc3_imx8mp_interrupt s in
  exists resumes : list device,
    performed dwc3_imx8mp_interrupt s
      = [Readl USB_WAKEUP_CTRL v;
         Writel (Z.land v 0x7FFFFFC0) USB_WAKEUP_CTRL]
        ++ map PmRuntimeResume resumes /\
    (current_dr_role dwc = DWC3_GCTL_PRTCAP_HOST ->
       forall x, xhci dwc = Some x -> resumes = [x]) /\
    (current_dr_role dwc = DWC3_GCTL_PRTCAP_DEVICE ->
       resumes = [dwc_dev dwc]) /\
    (current_dr_role dwc = DWC3_GCTL_PRTCAP_HOST ->
       xhci dwc = None -> resumes = []) /\
    (current_dr_role dwc <> DWC3_GCTL_PRTCAP_HOST ->
       current_dr_role dwc <> DWC3_GCTL_PRTCAP_DEVICE -> resumes = []) /\
    wakeup_ctrl s' = Z.land v 0x7FFFFFC0 /\
    Z.testbit (wakeup_ctrl s') 31 = false /\
    Z.land (wakeup_ctrl s') USB_WAKEUP_EN_MASK = 0 /\
    eval dwc3_imx8mp_interrupt s = IRQ_HANDLED.
Proof.
  intros Hs dwc v s'. subst s'.
  pose proof (dwc3_imx8mp_interrupt_suspended_resumes s Hs) as Hrun.
  fold dwc in Hrun.
  destruct (wakeup_disable_val_disarmed v) as (Hval & Hen & Hmask).
  exists (interrupt_resumes dwc). split; [|split; [|split; [|split; [|split]]]].
  - apply performed_trace. unfold exec at 1. rewrite Hrun. cbn [snd].
    rewrite log_all_trace, wakeup_disable_trace, wakeup_disable_performed.
    fold v. now rewrite Hval, <- app_assoc.
  - intros HH x Hx. unfold interrupt_resumes.
    rewrite HH, Hx. reflexivity.
  - intros HD. unfold interrupt_resumes.
    rewrite HD. cbn [Z.eqb DWC3_GCTL_PRTCAP_DEVICE DWC3_GCTL_PRTCAP_HOST Pos.eqb].
    reflexivity.
  - intros HH Hx. unfold interrupt_resumes.
    rewrite HH, Hx. reflexivity.
  - intros HH HD. unfold interrupt_resumes.
    apply Z.eqb_neq in HH, HD. rewrite HH, HD. reflexivity.
  - assert (Hexec : wakeup_ctrl (exec dwc3_imx8mp_interrupt s)
                    = wakeup_disable_val v).
    { unfold exec at 1. rewrite Hrun. cbn [snd].
      now rewrite log_all_wakeup_ctrl, wakeup_disable_ctrl. }
    rewrite Hexec. unfold eval. rewrite Hrun.
    repeat split; assumption.
Qed.

(** A suspended host instance armed for a host: the handler leaves the
    register at zero and asks the host child to resume. *)
Lemma interrupt_while_suspended_witness :
  pm_suspended host_glue_suspended = true /\
  performed dwc3_imx8mp_interrupt host_glue_suspended
  = [Readl USB_WAKEUP_CTRL 0x80000029; Writel 0 USB_WAKEUP_CTRL;
     PmRuntimeResume 3] /\
  wakeup_ctrl (exec dwc3_imx8mp_interrupt host_glue_suspended) = 0.
Proof.
  split; [reflexivity|].
  destruct (interrupt_while_suspended host_glue_suspended eq_refl)
    as (resumes & Hp & Hhost & _ & _ & _ & Hreg & _).
  split.
  - rewrite Hp, (Hhost eq_refl 3 eq_refl). reflexivity.
  - rewrite Hreg. reflexivity.
Defined.

(** C3: an interrupt delivered while the suspended flag is false is
    reported handled and changes nothing: no register access (so no
    disarm), no resume request, no clock call, and the register, the
    clocks and the suspended flag are as before. *)
Theorem interrupt_while_active s :
  pm_suspended s = false ->
  dwc3_imx8mp_interrupt s = (IRQ_HANDLED, s) /\
  performed dwc3_imx8mp_interrupt s = [].
Proof.
  intros Hs.
  assert (E : dwc3_imx8mp_interrupt s = (IRQ_HANDLED, s)).
  { unfold dwc3_imx8mp_interrupt, bind, platform_get_drvdata, get.
    cbv beta iota. now rewrite Hs. }
  split; [exact E|].
  apply performed_nothing. unfold exec. now rewrite E.
Qed.

Lemma interrupt_while_active_witness :
  pm_suspended host_glue = false /\
  dwc3_imx8mp_interrupt host_glue = (IRQ_HANDLED, host_glue).
Proof.
  split; [reflexivity|].
  exact (proj1 (interrupt_while_active host_glue eq_refl)).
Defined.

(* ================================================================== *)
(** * PowerStateCoordinator: suspend and resume *)
(* ================================================================== *)

Lemma clk_prepare_enable_failure id s :
  enable_ret (clk_of id s) <> 0 ->
  clk_prepare_enable id s
  = (enable_ret (clk_of id s),
     log (ClkPrepareEnable id (enable_ret (clk_of id s))) s).
Proof.
  intros H. apply Z.eqb_neq in H.
  unfold clk_prepare_enable, bind, get, modify, when. cbv beta iota.
  destruct id; cbn [clk_of log bus_clk sleep_clk] in *; now rewrite H.
Qed.

(** C4: when the bus clock cannot be enabled during a resume entered
    with the suspended flag true, the resume returns the clock's error
    to its caller and leaves the suspended flag false (the bus clock
    stays as it was); a retry therefore starts from a not-suspended
    state, in which the resume returns 0 and changes nothing. *)
Theorem resume_clock_failure msg s :
  pm_suspended s = true ->
  enable_ret (bus_clk s) <> 0 ->
  let s' := exec (dwc3_imx8mp_resume msg) s in
  eval (dwc3_imx8mp_resume msg) s = enable_ret (bus_clk s) /\
  eval (dwc3_imx8mp_resume msg) s <> 0 /\
  pm_suspended s' = false /\
  bus_clk s' = bus_clk s /\
  (forall msg', dwc3_imx8mp_resume msg' s' = (0, s')).
Proof.
  intros Hs Hclk s'.
  assert (Hexec : s' = exec dwc_imx8mp_wakeup_disable
                         (log (ClkPrepareEnable BusClk (enable_ret (bus_clk s)))
                              (set_pm_suspended false s))).
  { subst s'. unfold exec at 1.
    rewrite (dwc3_imx8mp_resume_suspended msg s Hs). cbn [snd].
    unfold exec at 2.
    now rewrite (clk_prepare_enable_failure BusClk (set_pm_suspended false s) Hclk). }
  assert (Hflag : pm_suspended s' = false) by (now rewrite Hexec).
  unfold eval. rewrite (dwc3_imx8mp_resume_suspended msg s Hs). cbn [fst].
  repeat split; try assumption.
  - now rewrite Hexec.
  - intros msg'. now apply dwc3_imx8mp_resume_active.
Qed.

Lemma resume_clock_failure_witness :
  pm_suspended device_glue_clock_broken = true /\
  enable_ret (bus_clk device_glue_clock_broken) <> 0 /\
  eval (dwc3_imx8mp_resume PMSG_RESUME) device_glue_clock_broken = -5 /\
  pm_suspended (exec (dwc3_imx8mp_resume PMSG_RESUME) device_glue_clock_broken)
    = false.
Proof.
  assert (Hc : enable_ret (bus_clk device_glue_clock_broken) <> 0)
    by discriminate.
  split; [reflexivity|]. split; [exact Hc|].
  destruct (resume_clock_failure PMSG_RESUME device_glue_clock_broken
              eq_refl Hc) as (Hret & _ & Hflag & _).
  split; [exact Hret | exact Hflag].
Defined.

(** C8: for every starting state, a second suspend right after a first
    one returns 0 and leaves the state of the first (register, clocks,
    suspended flag) untouched, performing no action at all: no arming,
    no clock call.  Two suspends in a row therefore end in the state one
    suspend ends in, and that state has the suspended flag set. *)
Theorem suspend_idempotent msg msg' s :
  dwc3_imx8mp_suspend msg' (exec (dwc3_imx8mp_suspend msg) s)
    = (0, exec (dwc3_imx8mp_suspend msg) s) /\
  performed (dwc3_imx8mp_suspend msg') (exec (dwc3_imx8mp_suspend msg) s) = [] /\
  exec (dwc3_imx8mp_suspend msg ;; dwc3_imx8mp_suspend msg') s
    = exec (dwc3_imx8mp_suspend msg) s /\
  pm_suspended (exec (dwc3_imx8mp_suspend msg) s) = true.
Proof.
  assert (Hflag : pm_suspended (exec (dwc3_imx8mp_suspend msg) s) = true).
  { unfold exec. destruct (pm_suspended s) eqn:Hs.
    - now rewrite (dwc3_imx8mp_suspend_suspended msg s Hs).
    - now rewrite (dwc3_imx8mp_suspend_active msg s Hs). }
  pose proof (dwc3_imx8mp_suspend_suspended msg' _ Hflag) as Hsecond.
  split; [exact Hsecond|]. split; [|split; [|exact Hflag]].
  - apply performed_nothing. unfold exec at 1. now rewrite Hsecond.
  - rewrite exec_bind. unfold exec at 1. now rewrite Hsecond.
Qed.

(** C10: suspend returns 0 on every path: for every starting state
    (suspended or not, whatever the role and the wake capability) and
    every message, and so through both entry points, system sleep and
    runtime suspend. *)
Theorem suspend_returns_zero msg s :
  eval (dwc3_imx8mp_suspend msg) s = 0 /\
  eval dwc3_imx8mp_pm_suspend s = 0 /\
  eval dwc3_imx8mp_runtime_suspend s = 0.
Proof.
  assert (H : forall m t, eval (dwc3_imx8mp_suspend m) t = 0).
  { intros m t. unfold eval. destruct (pm_suspended t) eqn:Ht.
    - now rewrite (dwc3_imx8mp_suspend_suspended m t Ht).
    - now rewrite (dwc3_imx8mp_suspend_active m t Ht). }
  split; [apply H|]. split; [|apply H].
  unfold dwc3_imx8mp_pm_suspend, device_may_wakeup, bind, get, eval.
  cbv beta iota.
  destruct (when (may_wakeup s) (enable_irq_wake (irq s)) s) as [[] t].
  apply H.
Qed.

(* ================================================================== *)
(** * End-to-end scenarios *)
(* ================================================================== *)

(** An active device instance entering system sleep with wake capability
    enabled: the register shows global-enable, vbus-change and
    vbus-source-select, the bus clock is off and the flag is set. *)
Example system_sleep_of_device :
  dwc3_imx8mp_pm_suspend device_glue =
    (0, {| dev := 1; dwc3_drvdata := sample_dwc None DWC3_GCTL_PRTCAP_DEVICE;
           wakeup_ctrl := 0x80000012;
           bus_clk := sample_clk 0 0; sleep_clk := sample_clk 0 1;
           irq := 40; pm_suspended := true; may_wakeup := true;
           trace := [EnableIrqWake 40;
                     Readl USB_WAKEUP_CTRL 0;
                     Writel 0x80000012 USB_WAKEUP_CTRL;
                     ClkDisableUnprepare BusClk] |}).
Proof. reflexivity. Qed.

(** From there an interrupt clears the register and asks the controller
    (peripheral stack) to resume; the system resume that follows brings
    the bus clock back and clears the flag. *)
Example wakeup_of_device :
  performed dwc3_imx8mp_interrupt (exec dwc3_imx8mp_pm_suspend device_glue)
    = [Readl USB_WAKEUP_CTRL 0x80000012; Writel 0 USB_WAKEUP_CTRL;
       PmRuntimeResume 2] /\
  dwc3_imx8mp_pm_resume
    (exec dwc3_imx8mp_interrupt (exec dwc3_imx8mp_pm_suspend device_glue))
    = (0, {| dev := 1; dwc3_drvdata := sample_dwc None DWC3_GCTL_PRTCAP_DEVICE;
             wakeup_ctrl := 0;
             bus_clk := sample_clk 0 1; sleep_clk := sample_clk 0 1;
             irq := 40; pm_suspended := false; may_wakeup := true;
             trace := [EnableIrqWake 40;
                       Readl USB_WAKEUP_CTRL 0;
                       Writel 0x80000012 USB_WAKEUP_CTRL;
                       ClkDisableUnprepare BusClk;
                       Readl USB_WAKEUP_CTRL 0x80000012;
                       Writel 0 USB_WAKEUP_CTRL;
                       PmRuntimeResume 2;
                       DisableIrqWake 40;
                       ClkPrepareEnable BusClk 0;
                       Readl USB_WAKEUP_CTRL 0;
                       Writel 0 USB_WAKEUP_CTRL;
                       PmRuntimeDisable 1;
                       PmRuntimeSetActive 1;
                       PmRuntimeEnable 1] |}).
Proof. split; reflexivity. Qed.

(** A runtime suspend arms the wakeup even when the device may not wake
    the system; a system suspend then does not. *)
Example wake_capability_gates_system_sleep_only :
  let quiet := {| dev := 1; dwc3_drvdata := sample_dwc None DWC3_GCTL_PRTCAP_DEVICE;
                  wakeup_ctrl := 0;
                  bus_clk := sample_clk 0 1; sleep_clk := sample_clk 0 1;
                  irq := 40; pm_suspended := false; may_wakeup := false;
                  trace := [] |} in
  wakeup_ctrl (exec dwc3_imx8mp_runtime_suspend quiet) = 0x80000012 /\
  wakeup_ctrl (exec dwc3_imx8mp_pm_suspend quiet) = 0.
Proof. split; reflexivity. Qed.

(* ================================================================== *)
(** * The instance over its lifetime *)
(* ================================================================== *)

Ltac drv_unfold :=
  unfold exec, eval, run_event,
    dwc3_imx8mp_pm_suspend, dwc3_imx8mp_pm_resume,
    dwc3_imx8mp_runtime_suspend, dwc3_imx8mp_runtime_resume,
    dwc3_imx8mp_suspend, dwc3_imx8mp_resume, dwc3_imx8mp_interrupt,
    dwc_imx8mp_wakeup_enable, dwc_imx8mp_wakeup_disable,
    clk_prepare_enable, clk_disable_unprepare, readl, writel,
    pm_runtime_resume, enable_irq_wake, disable_irq_wake,
    pm_runtime_disable, pm_runtime_set_active, pm_runtime_enable,
    platform_get_drvdata, device_may_wakeup,
    bind, get, modify, when, ret.

Ltac drv_cbn :=
  cbn -[wakeup_disable_val wakeup_enable_val wakeup_all_bits].

(** Case analysis on everything a callback branches on, followed by
    evaluation of the callback. *)
Ltac drv_cases s :=
  let d := fresh "d" in let dwc := fresh "dwc" in let v := fresh "v" in
  let bn := fresh "bn" in let br := fresh "br" in let sl := fresh "sl" in
  let i := fresh "i" in let susp := fresh "susp" in
  let wake := fresh "wake" in let t := fresh "t" in
  destruct s as [d dwc v [bn br] sl i susp wake t];
  let E := fresh "E" in let EH := fresh "EH" in
  let ED := fresh "ED" in let EX := fresh "EX" in
  destruct susp, wake, (br =? 0) eqn:E,
    (current_dr_role dwc =? DWC3_GCTL_PRTCAP_HOST) eqn:EH,
    (current_dr_role dwc =? DWC3_GCTL_PRTCAP_DEVICE) eqn:ED,
    (xhci dwc) eqn:EX;
  drv_unfold; drv_cbn; rewrite ?E, ?EH, ?ED, ?EX; drv_cbn.

Lemma wakeup_disable_val_clears v :
  Z.land (wakeup_disable_val v) wakeup_all_bits = 0.
Proof.
  rewrite wakeup_disable_val_spec, <- Z.land_assoc.
  change (Z.land wakeup_kept_bits wakeup_all_bits) with 0.
  apply Z.land_0_r.
Qed.

Lemma wakeup_disable_val_idempotent v :
  wakeup_disable_val (wakeup_disable_val v) = wakeup_disable_val v.
Proof.
  rewrite !wakeup_disable_val_spec, <- Z.land_assoc, Z.land_diag.
  reflexivity.
Qed.

Lemma run_events_cons e es s :
  exec (run_events (e :: es)) s = exec (run_events es) (exec (run_event e) s).
Proof. apply exec_bind. Qed.

Lemma run_events_app es1 : forall es2 s,
  exec (run_events (es1 ++ es2)) s
  = exec (run_events es2) (exec (run_events es1) s).
Proof.
  induction es1 as [|e es1 IH]; intros es2 s; [reflexivity|].
  cbn [app]. now rewrite !run_events_cons, IH.
Qed.

(** One event keeps the wakeup field clear while the instance is active. *)
Lemma run_event_disarmed e s :
  (pm_suspended s = false -> Z.land (wakeup_ctrl s) wakeup_all_bits = 0) ->
  pm_suspended (exec (run_event e) s) = false ->
  Z.land (wakeup_ctrl (exec (run_event e) s)) wakeup_all_bits = 0.
Proof.
  destruct e; drv_cases s; intros H H'; cbn [pm_suspended wakeup_ctrl] in H;
    try discriminate H';
    try apply wakeup_disable_val_clears; try (apply H; reflexivity).
Qed.

(** One event keeps the bus clock off while the instance is suspended,
    and never enabled more than once. *)
Lemma run_event_bus_clk e s :
  (enable_count (bus_clk s) <= 1)%nat ->
  (pm_suspended s = true -> enable_count (bus_clk s) = 0%nat) ->
  (enable_count (bus_clk (exec (run_event e) s)) <= 1)%nat /\
  (pm_suspended (exec (run_event e) s) = true ->
   enable_count (bus_clk (exec (run_event e) s)) = 0%nat).
Proof.
  destruct e; drv_cases s; intros H1 H2;
    cbn [pm_suspended bus_clk enable_count] in H1, H2;
    try specialize (H2 eq_refl);
    (split; [lia | intros H3; try discriminate H3; try lia; auto]).
Qed.

(** While no enable fails, one event keeps the bus clock on exactly when
    the instance is active. *)
Lemma run_event_bus_clk_on e s :
  clock_reliable e = true ->
  enable_ret (bus_clk s) = 0 ->
  enable_count (bus_clk s) = (if pm_suspended s then 0 else 1)%nat ->
  enable_ret (bus_clk (exec (run_event e) s)) = 0 /\
  enable_count (bus_clk (exec (run_event e) s))
  = (if pm_suspended (exec (run_event e) s) then 0 else 1)%nat.
Proof.
  destruct e; drv_cases s; intros Hr H1 H2;
    cbn [pm_suspended bus_clk enable_count enable_ret clock_reliable] in Hr, H1, H2;
    try (subst br; discriminate);
    try (apply Z.eqb_eq in Hr);
    (split; [assumption || reflexivity | try assumption; try (rewrite H2; reflexivity)]).
Qed.

(** One event leaves the sleep clock, the device and the interrupt
    number alone and only adds actions, none of them on the sleep clock. *)
Lemma run_event_frame e s :
  sleep_clk (exec (run_event e) s) = sleep_clk s /\
  dev (exec (run_event e) s) = dev s /\
  irq (exec (run_event e) s) = irq s /\
  exists l, trace (exec (run_event e) s) = trace s ++ l /\
            existsb on_sleep_clk l = false.
Proof.
  destruct e; drv_cases s;
    (split; [reflexivity|]; split; [reflexivity|]; split; [reflexivity|]);
    first [ exists []; split; [now rewrite app_nil_r | reflexivity]
          | rewrite <- ?app_assoc; eexists; split; reflexivity ].
Qed.

Lemma skipn_length_app {A : Type} (t l : list A) :
  skipn (length t) (t ++ l) = l.
Proof. now rewrite skipn_app, skipn_all, Nat.sub_diag. Qed.

(** X1: however the callbacks of the glue, the wakeup interrupt and
    changes of role, wake capability and clock behaviour follow one
    another, an instance that starts active with a clear wakeup field
    has a clear wakeup field (global enable and all six source bits
    zero) whenever it is active again: wakeup sources are armed only
    while the instance is suspended. *)
Theorem wakeup_armed_only_while_suspended es s :
  pm_suspended s = false ->
  Z.land (wakeup_ctrl s) wakeup_all_bits = 0 ->
  pm_suspended (exec (run_events es) s) = false ->
  Z.land (wakeup_ctrl (exec (run_events es) s)) wakeup_all_bits = 0.
Proof.
  intros Hs Hv.
  assert (H : pm_suspended s = false ->
              Z.land (wakeup_ctrl s) wakeup_all_bits = 0) by auto.
  clear Hs Hv. revert s H.
  induction es as [|e es IH]; intros s H; [exact H|].
  rewrite run_events_cons. apply IH.
  now apply run_event_disarmed.
Qed.

Lemma wakeup_armed_only_while_suspended_witness :
  pm_suspended host_glue = false /\
  Z.land (wakeup_ctrl host_glue) wakeup_all_bits = 0 /\
  Z.land (wakeup_ctrl (exec (run_events wake_cycle) host_glue))
         wakeup_all_bits = 0.
Proof.
  split; [reflexivity|]. split; [reflexivity|].
  apply (wakeup_armed_only_while_suspended wake_cycle host_glue);
    reflexivity.
Defined.

(** X2: from an active instance whose bus clock is enabled once, every
    sequence of events leaves the bus clock enabled at most once and off
    whenever the instance is suspended; and as long as no enable of the
    bus clock fails, the bus clock is on (enabled exactly once) whenever
    the instance is active. *)
Theorem bus_clock_follows_suspended es s :
  pm_suspended s = false ->
  enable_count (bus_clk s) = 1%nat ->
  (enable_count (bus_clk (exec (run_events es) s)) <= 1)%nat /\
  (pm_suspended (exec (run_events es) s) = true ->
   enable_count (bus_clk (exec (run_events es) s)) = 0%nat) /\
  (enable_ret (bus_clk s) = 0 -> forallb clock_reliable es = true ->
   pm_suspended (exec (run_events es) s) = false ->
   enable_count (bus_clk (exec (run_events es) s)) = 1%nat).
Proof.
  intros Hs Hn.
  assert (G : (enable_count (bus_clk (exec (run_events es) s)) <= 1)%nat /\
              (pm_suspended (exec (run_events es) s) = true ->
               enable_count (bus_clk (exec (run_events es) s)) = 0%nat)).
  { assert (H1 : (enable_count (bus_clk s) <= 1)%nat) by lia.
    assert (H2 : pm_suspended s = true -> enable_count (bus_clk s) = 0%nat)
      by congruence.
    clear Hs Hn. revert s H1 H2.
    induction es as [|e es IH]; intros s H1 H2; [now split|].
    rewrite run_events_cons.
    destruct (run_event_bus_clk e s H1 H2) as [H1' H2']. now apply IH. }
  destruct G as [G1 G2]. split; [exact G1|]. split; [exact G2|].
  intros Hr Hes.
  assert (H : enable_count (bus_clk s)
              = (if pm_suspended s then 0 else 1)%nat) by now rewrite Hs.
  clear Hs Hn G1 G2. revert s Hr H.
  induction es as [|e es IH]; intros s Hr H Hact.
  - change (exec (run_events []) s) with s in *.
    now rewrite H, Hact.
  - cbn [forallb] in Hes. apply andb_prop in Hes. destruct Hes as [He Hes].
    rewrite run_events_cons in *.
    destruct (run_event_bus_clk_on e s He Hr H) as [Hr' H'].
    now apply IH.
Qed.

Lemma bus_clock_follows_suspended_witness :
  pm_suspended host_glue = false /\
  enable_count (bus_clk host_glue) = 1%nat /\
  enable_count (bus_clk (exec (run_events wake_cycle) host_glue)) = 1%nat.
Proof.
  split; [reflexivity|]. split; [reflexivity|].
  apply (bus_clock_follows_suspended wake_cycle host_glue); reflexivity.
Defined.

(** X3: no sequence of events touches the sleep clock: its state is as
    at the start and none of the actions performed is an enable or a
    disable of it; the device and the interrupt number of the instance
    stay as they are too. *)
Theorem sleep_clock_untouched es s :
  sleep_clk (exec (run_events es) s) = sleep_clk s /\
  existsb on_sleep_clk (performed (run_events es) s) = false /\
  dev (exec (run_events es) s) = dev s /\
  irq (exec (run_events es) s) = irq s.
Proof.
  assert (G : sleep_clk (exec (run_events es) s) = sleep_clk s /\
              dev (exec (run_events es) s) = dev s /\
              irq (exec (run_events es) s) = irq s /\
              exists l, trace (exec (run_events es) s) = trace s ++ l /\
                        existsb on_sleep_clk l = false).
  { revert s. induction es as [|e es IH]; intros s.
    - repeat split. exists []. split; [|reflexivity].
      change (exec (run_events []) s) with s. now rewrite app_nil_r.
    - rewrite run_events_cons.
      destruct (run_event_frame e s) as (F1 & F2 & F3 & l1 & F4 & F5).
      destruct (IH (exec (run_event e) s)) as (G1 & G2 & G3 & l2 & G4 & G5).
      rewrite G1, G2, G3, F1, F2, F3. repeat split.
      exists (l1 ++ l2). split.
      + now rewrite G4, F4, app_assoc.
      + rewrite existsb_app, F5, G5. reflexivity. }
  destruct G as (G1 & G2 & G3 & l & G4 & G5).
  repeat split; try assumption.
  unfold performed. now rewrite G4, skipn_length_app.
Qed.

(* ================================================================== *)
(** * What each callback does, step by step *)
(* ================================================================== *)

(** Evaluation of [performed] once the trace is an explicit extension. *)
Ltac performed_cases s :=
  unfold performed; drv_cases s;
  rewrite <- ?app_assoc; cbn [app];
  rewrite ?skipn_length_app, ?skipn_all.

Lemma dwc3_imx8mp_resume_performed msg s :
  performed (dwc3_imx8mp_resume msg) s =
    if pm_suspended s
    then [ClkPrepareEnable BusClk (enable_ret (bus_clk s));
          Readl USB_WAKEUP_CTRL (wakeup_ctrl s);
          Writel (wakeup_disable_val (wakeup_ctrl s)) USB_WAKEUP_CTRL]
    else [].
Proof. performed_cases s; reflexivity. Qed.

(** X4: entering low power from the active state arms before it stops
    the bus clock, and arms according to the entry path: a runtime
    suspend always arms the wakeup (one read and one write of the
    control register), whatever the wake capability; a system suspend
    arms it, after enabling the interrupt as a system wakeup source,
    only when the device may wake the system, and otherwise does
    nothing but stop the bus clock. *)
Theorem suspend_arming_policy s :
  pm_suspended s = false ->
  performed dwc3_imx8mp_runtime_suspend s
    = [Readl USB_WAKEUP_CTRL (wakeup_ctrl s);
       Writel (wakeup_enable_val (dwc3_drvdata s) (wakeup_ctrl s))
              USB_WAKEUP_CTRL;
       ClkDisableUnprepare BusClk] /\
  performed dwc3_imx8mp_pm_suspend s
    = if may_wakeup s
      then [EnableIrqWake (irq s);
            Readl USB_WAKEUP_CTRL (wakeup_ctrl s);
            Writel (wakeup_enable_val (dwc3_drvdata s) (wakeup_ctrl s))
                   USB_WAKEUP_CTRL;
            ClkDisableUnprepare BusClk]
      else [ClkDisableUnprepare BusClk].
Proof.
  intros Hs. split; revert Hs; performed_cases s; intros Hs;
    try discriminate Hs; reflexivity.
Qed.

Lemma suspend_arming_policy_witness :
  pm_suspended (set_may_wakeup false device_glue) = false /\
  performed dwc3_imx8mp_runtime_suspend (set_may_wakeup false device_glue)
    = [Readl USB_WAKEUP_CTRL 0; Writel 0x80000012 USB_WAKEUP_CTRL;
       ClkDisableUnprepare BusClk].
Proof.
  split; [reflexivity|].
  exact (proj1 (suspend_arming_policy (set_may_wakeup false device_glue)
                                      eq_refl)).
Defined.

(** X5: a resume entered with the suspended flag set tries to enable the
    bus clock exactly once and then disarms the wakeup, whether or not
    the clock came up: it returns the clock's result, leaves the flag
    clear and the wakeup field of the register clear, and the bus clock
    has one more enable exactly when the result is 0. *)
Theorem resume_disarms_whatever_the_clock msg s :
  pm_suspended s = true ->
  performed (dwc3_imx8mp_resume msg) s
    = [ClkPrepareEnable BusClk (enable_ret (bus_clk s));
       Readl USB_WAKEUP_CTRL (wakeup_ctrl s);
       Writel (wakeup_disable_val (wakeup_ctrl s)) USB_WAKEUP_CTRL] /\
  eval (dwc3_imx8mp_resume msg) s = enable_ret (bus_clk s) /\
  pm_suspended (exec (dwc3_imx8mp_resume msg) s) = false /\
  Z.land (wakeup_ctrl (exec (dwc3_imx8mp_resume msg) s)) wakeup_all_bits = 0 /\
  enable_count (bus_clk (exec (dwc3_imx8mp_resume msg) s))
  = if enable_ret (bus_clk s) =? 0
    then S (enable_count (bus_clk s)) else enable_count (bus_clk s).
Proof.
  intros Hs. split.
  - now rewrite dwc3_imx8mp_resume_performed, Hs.
  - revert Hs. drv_cases s; intros Hs; try discriminate Hs;
      repeat split; apply wakeup_disable_val_clears.
Qed.

Lemma resume_disarms_whatever_the_clock_witness :
  pm_suspended device_glue_clock_broken = true /\
  Z.land (wakeup_ctrl (exec (dwc3_imx8mp_resume PMSG_AUTO_RESUME)
                            device_glue_clock_broken))
         wakeup_all_bits = 0.
Proof.
  split; [reflexivity|].
  apply (resume_disarms_whatever_the_clock PMSG_AUTO_RESUME
           device_glue_clock_broken eq_refl).
Defined.

(** X6: a system resume always ends by re-establishing the runtime PM
    bookkeeping (disable, set active, enable) and returns what the core
    resume returned, also when the bus clock failed and when the
    instance was not suspended at all; before the core resume it
    withdraws the interrupt as a system wakeup source exactly when the
    device may wake the system. *)
Theorem pm_resume_bookkeeping s :
  performed dwc3_imx8mp_pm_resume s
    = (if may_wakeup s then [DisableIrqWake (irq s)] else [])
      ++ performed (dwc3_imx8mp_resume PMSG_RESUME) s
      ++ [PmRuntimeDisable (dev s); PmRuntimeSetActive (dev s);
          PmRuntimeEnable (dev s)] /\
  eval dwc3_imx8mp_pm_resume s = eval (dwc3_imx8mp_resume PMSG_RESUME) s.
Proof.
  rewrite dwc3_imx8mp_resume_performed. split.
  - performed_cases s; reflexivity.
  - drv_cases s; reflexivity.
Qed.

(** X7: over a system suspend followed by a system resume the interrupt
    is enabled as a system wakeup source as often as it is withdrawn:
    once each when the device may wake the system, never otherwise. *)
Theorem irq_wake_balanced s :
  length (filter is_enable_irq_wake
            (performed (dwc3_imx8mp_pm_suspend ;; dwc3_imx8mp_pm_resume) s))
  = (if may_wakeup s then 1 else 0)%nat /\
  length (filter is_disable_irq_wake
            (performed (dwc3_imx8mp_pm_suspend ;; dwc3_imx8mp_pm_resume) s))
  = (if may_wakeup s then 1 else 0)%nat.
Proof.
  split; performed_cases s; reflexivity.
Qed.

(** X8: resume is idempotent: a second resume right after a first one
    returns 0, performs nothing and leaves the state of the first, in
    which the suspended flag is clear; this holds also when the first
    resume returned an error. *)
Theorem resume_idempotent msg msg' s :
  dwc3_imx8mp_resume msg' (exec (dwc3_imx8mp_resume msg) s)
    = (0, exec (dwc3_imx8mp_resume msg) s) /\
  performed (dwc3_imx8mp_resume msg') (exec (dwc3_imx8mp_resume msg) s) = [] /\
  exec (dwc3_imx8mp_resume msg ;; dwc3_imx8mp_resume msg') s
    = exec (dwc3_imx8mp_resume msg) s /\
  pm_suspended (exec (dwc3_imx8mp_resume msg) s) = false.
Proof.
  assert (Hflag : pm_suspended (exec (dwc3_imx8mp_resume msg) s) = false).
  { clear msg'. drv_cases s; reflexivity. }
  pose proof (dwc3_imx8mp_resume_active msg' _ Hflag) as Hsecond.
  split; [exact Hsecond|]. split; [|split; [|exact Hflag]].
  - apply performed_nothing. unfold exec at 1. now rewrite Hsecond.
  - rewrite exec_bind. unfold exec at 1. now rewrite Hsecond.
Qed.

Lemma wakeup_field_clear_kept v :
  is_u32 v -> Z.land v wakeup_all_bits = 0 -> Z.land v wakeup_kept_bits = v.
Proof.
  intros Hv H. rewrite <- (u32_small v Hv) at 2. rewrite u32_land_ones.
  change (Z.ones 32) with (Z.lor wakeup_kept_bits wakeup_all_bits).
  now rewrite Z.land_lor_distr_r, H, Z.lor_0_r.
Qed.

Lemma wakeup_disable_after_enable dwc v :
  wakeup_disable_val (wakeup_enable_val dwc v) = Z.land v wakeup_kept_bits.
Proof.
  rewrite wakeup_disable_val_spec.
  rewrite wakeup_enable_val_land by reflexivity.
  destruct (xhci dwc).
  - change (Z.land wakeup_host_bits wakeup_kept_bits) with 0.
    apply Z.lor_0_r.
  - destruct (_ =? _); [|reflexivity].
    change (Z.land wakeup_device_bits wakeup_kept_bits) with 0.
    apply Z.lor_0_r.
Qed.

Lemma dwc3_imx8mp_ext s s' :
  dev s = dev s' -> dwc3_drvdata s = dwc3_drvdata s' ->
  wakeup_ctrl s = wakeup_ctrl s' -> bus_clk s = bus_clk s' ->
  sleep_clk s = sleep_clk s' -> irq s = irq s' ->
  pm_suspended s = pm_suspended s' -> may_wakeup s = may_wakeup s' ->
  trace s = trace s' -> s = s'.
Proof.
  destruct s, s'. cbn. intros. subst. reflexivity.
Qed.

(** X9: a suspend followed by a resume brings an active instance back to
    where it was: when the bus clock is on and comes back on, and the
    register is a 32-bit value with a clear wakeup field, both calls
    return 0 and the register, both clocks, the flag and everything else
    are exactly as before; only the trace has grown. *)
Theorem suspend_resume_round_trip msg msg' s :
  pm_suspended s = false ->
  (1 <= enable_count (bus_clk s))%nat ->
  enable_ret (bus_clk s) = 0 ->
  is_u32 (wakeup_ctrl s) ->
  Z.land (wakeup_ctrl s) wakeup_all_bits = 0 ->
  eval (dwc3_imx8mp_suspend msg) s = 0 /\
  eval (dwc3_imx8mp_resume msg') (exec (dwc3_imx8mp_suspend msg) s) = 0 /\
  exists l,
    exec (dwc3_imx8mp_suspend msg ;; dwc3_imx8mp_resume msg') s =
    {| dev := dev s; dwc3_drvdata := dwc3_drvdata s;
       wakeup_ctrl := wakeup_ctrl s;
       bus_clk := bus_clk s; sleep_clk := sleep_clk s; irq := irq s;
       pm_suspended := false; may_wakeup := may_wakeup s;
       trace := trace s ++ l |}.
Proof.
  destruct s as [d dwc v [bn br] sl i susp wake t].
  cbn [pm_suspended bus_clk enable_count enable_ret wakeup_ctrl dev
       dwc3_drvdata sleep_clk irq may_wakeup trace].
  intros -> Hn -> Hv Hclear.
  destruct bn as [|bn]; [lia|].
  pose proof (wakeup_field_clear_kept v Hv Hclear) as Hkept.
  destruct (PMSG_IS_AUTO msg) eqn:EA, wake;
    drv_unfold; drv_cbn; rewrite ?EA; drv_cbn;
    rewrite ?wakeup_disable_after_enable, ?wakeup_disable_val_spec, ?Hkept;
    (split; [reflexivity|]; split; [reflexivity|]);
    eexists; apply dwc3_imx8mp_ext; drv_cbn;
    rewrite <- ?app_assoc; reflexivity.
Qed.

Lemma suspend_resume_round_trip_witness :
  pm_suspended device_glue = false /\
  wakeup_ctrl (exec (dwc3_imx8mp_suspend PMSG_AUTO_SUSPEND ;;
                     dwc3_imx8mp_resume PMSG_AUTO_RESUME) device_glue)
  = wakeup_ctrl device_glue.
Proof.
  split; [reflexivity|].
  assert (H1 : (1 <= enable_count (bus_clk device_glue))%nat)
    by (apply le_n).
  destruct (suspend_resume_round_trip PMSG_AUTO_SUSPEND PMSG_AUTO_RESUME
              device_glue eq_refl H1 eq_refl is_u32_0 eq_refl)
    as (_ & _ & l & Hl).
  rewrite Hl. reflexivity.
Defined.

Lemma log_all_dwc3_drvdata l : forall s,
  dwc3_drvdata (log_all l s) = dwc3_drvdata s.
Proof.
  induction l as [|a l IH]; intros s; [reflexivity|].
  cbn [log_all]. now rewrite IH.
Qed.

Lemma resume_requests_map l :
  resume_requests (map PmRuntimeResume l) = l.
Proof. induction l as [|d l IH]; [reflexivity|]. cbn. now rewrite IH. Qed.

Lemma dwc3_imx8mp_interrupt_requests s :
  pm_suspended s = true ->
  resume_requests (performed dwc3_imx8mp_interrupt s)
  = interrupt_resumes (dwc3_drvdata s).
Proof.
  intros Hs.
  rewrite (performed_trace s dwc3_imx8mp_interrupt
             (performed dwc_imx8mp_wakeup_disable s
              ++ map PmRuntimeResume (interrupt_resumes (dwc3_drvdata s)))).
  - rewrite wakeup_disable_performed. cbn [app resume_requests].
    apply resume_requests_map.
  - unfold exec at 1. rewrite (dwc3_imx8mp_interrupt_suspended_resumes s Hs).
    cbn [snd]. now rewrite log_all_trace, wakeup_disable_trace, <- app_assoc.
Qed.

(** X10: the handler does not remember that it has asked for a resume.
    On a later interrupt that still finds the suspended flag set, with
    the role and host child unchanged and the register as the handler
    left it, the handler disarms again: it reads the register and
    writes the same value back, the value of before the first interrupt
    with the global enable bit (31) and the six source bits (5..0)
    cleared, so the register stays disarmed; and it issues the same
    resume requests again, to the host child for role Host with a host
    child, to the controller for role Device. *)
Theorem interrupt_repeats_resume_request s s1 :
  pm_suspended s = true ->
  pm_suspended s1 = true ->
  dwc3_drvdata s1 = dwc3_drvdata s ->
  wakeup_ctrl s1 = wakeup_ctrl (exec dwc3_imx8mp_interrupt s) ->
  performed dwc3_imx8mp_interrupt s1
    = [Readl USB_WAKEUP_CTRL (Z.land (wakeup_ctrl s) 0x7FFFFFC0);
       Writel (Z.land (wakeup_ctrl s) 0x7FFFFFC0) USB_WAKEUP_CTRL]
      ++ map PmRuntimeResume
             (resume_requests (performed dwc3_imx8mp_interrupt s)) /\
  resume_requests (performed dwc3_imx8mp_interrupt s1)
    = resume_requests (performed dwc3_imx8mp_interrupt s) /\
  (current_dr_role (dwc3_drvdata s) = DWC3_GCTL_PRTCAP_HOST ->
   forall x, xhci (dwc3_drvdata s) = Some x ->
   resume_requests (performed dwc3_imx8mp_interrupt s1) = [x]) /\
  (current_dr_role (dwc3_drvdata s) = DWC3_GCTL_PRTCAP_DEVICE ->
   resume_requests (performed dwc3_imx8mp_interrupt s1)
   = [dwc_dev (dwc3_drvdata s)]) /\
  wakeup_ctrl (exec dwc3_imx8mp_interrupt s1)
    = Z.land (wakeup_ctrl s) 0x7FFFFFC0 /\
  Z.testbit (wakeup_ctrl (exec dwc3_imx8mp_interrupt s1)) 31 = false /\
  Z.land (wakeup_ctrl (exec dwc3_imx8mp_interrupt s1)) USB_WAKEUP_EN_MASK = 0.
Proof.
  intros Hs Hs1 Hdwc Hreg.
  assert (Hexec : forall s0, pm_suspended s0 = true ->
            exec dwc3_imx8mp_interrupt s0
            = log_all (map PmRuntimeResume (interrupt_resumes (dwc3_drvdata s0)))
                      (exec dwc_imx8mp_wakeup_disable s0)).
  { intros s0 H0. unfold exec at 1.
    now rewrite (dwc3_imx8mp_interrupt_suspended_resumes s0 H0). }
  destruct (wakeup_disable_val_disarmed (wakeup_ctrl s)) as (Hval & Hen & Hmask).
  assert (Hv1 : wakeup_ctrl s1 = Z.land (wakeup_ctrl s) 0x7FFFFFC0).
  { rewrite Hreg, (Hexec s Hs), log_all_wakeup_ctrl, wakeup_disable_ctrl.
    exact Hval. }
  assert (Hagain : wakeup_disable_val (wakeup_ctrl s1)
                   = Z.land (wakeup_ctrl s) 0x7FFFFFC0).
  { rewrite Hv1, <- Hval. apply wakeup_disable_val_idempotent. }
  assert (Hreq : forall s0, pm_suspended s0 = true ->
            resume_requests (performed dwc3_imx8mp_interrupt s0)
            = interrupt_resumes (dwc3_drvdata s0))
    by (intros s0 H0; now apply dwc3_imx8mp_interrupt_requests).
  assert (Hperf : performed dwc3_imx8mp_interrupt s1
            = [Readl USB_WAKEUP_CTRL (Z.land (wakeup_ctrl s) 0x7FFFFFC0);
               Writel (Z.land (wakeup_ctrl s) 0x7FFFFFC0) USB_WAKEUP_CTRL]
              ++ map PmRuntimeResume (interrupt_resumes (dwc3_drvdata s))).
  { apply performed_trace. rewrite (Hexec s1 Hs1), log_all_trace.
    rewrite wakeup_disable_trace, wakeup_disable_performed.
    now rewrite Hagain, Hv1, Hdwc, <- app_assoc. }
  assert (Hreg1 : wakeup_ctrl (exec dwc3_imx8mp_interrupt s1)
                  = Z.land (wakeup_ctrl s) 0x7FFFFFC0)
    by (now rewrite (Hexec s1 Hs1), log_all_wakeup_ctrl, wakeup_disable_ctrl).
  split; [rewrite (Hreq s Hs); exact Hperf|].
  split; [now rewrite (Hreq s Hs), (Hreq s1 Hs1), Hdwc|].
  split; [|split; [|split; [exact Hreg1|]]].
  - intros HH x Hx. rewrite (Hreq s1 Hs1), Hdwc.
    unfold interrupt_resumes. now rewrite HH, Hx.
  - intros HD. rewrite (Hreq s1 Hs1), Hdwc.
    unfold interrupt_resumes. rewrite HD. reflexivity.
  - rewrite Hreg1, <- Hval. now split.
Qed.

(** The handler run twice in a row on a suspended host instance: the
    second run writes the zero it reads and asks the host child again. *)
Lemma interrupt_repeats_resume_request_witness :
  pm_suspended host_glue_suspended = true /\
  pm_suspended (exec dwc3_imx8mp_interrupt host_glue_suspended) = true /\
  performed dwc3_imx8mp_interrupt
            (exec dwc3_imx8mp_interrupt host_glue_suspended)
  = [Readl USB_WAKEUP_CTRL 0; Writel 0 USB_WAKEUP_CTRL; PmRuntimeResume 3] /\
  wakeup_ctrl (exec dwc3_imx8mp_interrupt
                    (exec dwc3_imx8mp_interrupt host_glue_suspended)) = 0.
Proof.
  split; [reflexivity|]. split; [reflexivity|].
  destruct (interrupt_repeats_resume_request host_glue_suspended
              (exec dwc3_imx8mp_interrupt host_glue_suspended)
              eq_refl eq_refl eq_refl eq_refl)
    as (Hp & _ & _ & _ & Hr & _).
  split.
  - rewrite Hp. reflexivity.
  - rewrite Hr. reflexivity.
Defined.

(* ================================================================== *)
(** * The role hook *)
(* ================================================================== *)

Lemma set_role_post_all_snoc roles role u :
  set_role_post_all (roles ++ [role]) u
  = dwc3_imx8mp_set_role_post role (set_role_post_all roles u).
Proof. unfold set_role_post_all. now rewrite fold_left_app. Qed.

(** X11: after any series of role switches the autosuspend policy of the
    controller is decided by the last switch to Host or Device among
    them: disabled if that was Host, enabled if that was Device; if
    there was none, the policy is the one the series started with.
    Switches to any other role leave the policy alone. *)
Theorem set_role_post_last_switch_decides roles use_autosuspend :
  set_role_post_all roles use_autosuspend
  = match rev (filter host_or_device roles) with
    | [] => use_autosuspend
    | role :: _ => negb (role =? DWC3_GCTL_PRTCAP_HOST)
    end.
Proof.
  induction roles as [|role roles IH] using rev_ind; [reflexivity|].
  rewrite set_role_post_all_snoc, filter_app, rev_app_distr, IH.
  cbn [filter]. unfold dwc3_imx8mp_set_role_post.
  assert (Hhd : host_or_device role
                = (role =? DWC3_GCTL_PRTCAP_HOST)
                  || (role =? DWC3_GCTL_PRTCAP_DEVICE)) by reflexivity.
  rewrite Hhd.
  destruct (role =? DWC3_GCTL_PRTCAP_HOST) eqn:EH.
  - cbn [orb rev app]. now rewrite EH.
  - destruct (role =? DWC3_GCTL_PRTCAP_DEVICE) eqn:ED.
    + cbn [orb rev app]. now rewrite EH.
    + reflexivity.
Qed.

(* ================================================================== *)
(** * Probe and remove *)
(* ================================================================== *)

Ltac z_tests :=
  repeat match goal with
  | H : (_ =? _) = true |- _ => apply Z.eqb_eq in H
  | H : (_ =? _) = false |- _ => apply Z.eqb_neq in H
  | H : (_ <? _) = true |- _ => apply Z.ltb_lt in H
  | H : (_ <? _) = false |- _ => apply Z.ltb_ge in H
  end.

Ltac probe_log_split :=
  first [ exists []; split; [now rewrite app_nil_r|]
        | eexists; split; [rewrite <- ?app_assoc; reflexivity|] ];
  cbn [app].

(** Evaluation of probe, arguments first. *)
Ltac probe_eval :=
  cbv beta iota zeta delta
    [dwc3_imx8mp_probe dwc3_imx8mp_remove probe_depopulate probe_disable_clks
     lc_clk_prepare_enable lc_clk_disable_unprepare lc_do lc_set_clk lc_clk
     of_node devm_kzalloc_glue devm_platform_ioremap_resource
     devm_clk_get_bus devm_clk_get_sleep platform_get_irq
     devm_request_threaded_irq of_get_child_by_name of_platform_populate
     of_find_device_by_node devm_kzalloc_priv_data
     lc_bus_clk lc_sleep_clk lc_log enable_count enable_ret
     negb fst snd Nat.pred].

Ltac probe_next := cbv beta iota zeta delta [negb fst snd].

Ltac probe_failed :=
  probe_log_split; right;
  cbn [existsb filter is_populated is_depopulate is_runtime_enable orb];
  repeat match goal with
         | H : (?a =? ?b) = _ |- context [?a =? ?b] => rewrite H
         end;
  do 4 (split; [reflexivity|]);
  first [ intros _; z_tests; subst; split; reflexivity
        | intros H0; exfalso; z_tests;
          unfold EINVAL, ENOMEM, ENODEV, EPROBE_DEFER in *;
          first [discriminate H0 | lia | congruence] ].

(** Every way probe can end: it adds [l] to the log and either
    completes, with both clocks enabled once more and runtime PM
    enabled, or fails, with both clocks as they were. *)
Lemma dwc3_imx8mp_probe_outcome pdev w :
  exists l,
    lc_log (snd (dwc3_imx8mp_probe pdev w)) = lc_log w ++ l /\
    ((fst (dwc3_imx8mp_probe pdev w) = 0 /\
      existsb is_runtime_enable l = true /\
      existsb is_populated l = true /\
      filter is_depopulate l = [] /\
      enable_ret (lc_bus_clk w) = 0 /\ enable_ret (lc_sleep_clk w) = 0 /\
      lc_bus_clk (snd (dwc3_imx8mp_probe pdev w))
      = {| enable_count := S (enable_count (lc_bus_clk w)); enable_ret := 0 |} /\
      lc_sleep_clk (snd (dwc3_imx8mp_probe pdev w))
      = {| enable_count := S (enable_count (lc_sleep_clk w)); enable_ret := 0 |})
     \/
     (existsb is_runtime_enable l = false /\
      filter is_depopulate l
      = (if existsb is_populated l then [OfPlatformDepopulate] else []) /\
      lc_bus_clk (snd (dwc3_imx8mp_probe pdev w)) = lc_bus_clk w /\
      lc_sleep_clk (snd (dwc3_imx8mp_probe pdev w)) = lc_sleep_clk w /\
      (fst (dwc3_imx8mp_probe pdev w) = 0 ->
       of_get_child_by_name pdev = false /\
       l = probe_log_no_child (platform_get_irq pdev)))).
Proof.
  destruct pdev as [node kz io cb cs irq rq child pop fd kp].
  destruct w as [[bn br] [sn sr] lg].
  probe_eval.
  destruct node; probe_next; [|probe_failed].
  destruct kz; probe_next; [|probe_failed].
  destruct io as [|e]; probe_next; [|probe_failed].
  destruct cb as [|e]; probe_next; [|probe_failed].
  destruct cs as [|e]; probe_next; [|probe_failed].
  destruct (br =? 0) eqn:Eb; probe_next; [|probe_failed].
  destruct (sr =? 0) eqn:Es; probe_next; [|probe_failed].
  destruct (irq <? 0) eqn:Ei; probe_next; [probe_failed|].
  destruct (rq =? 0) eqn:Er; probe_next; [|probe_failed].
  destruct child; probe_next; [|probe_failed].
  destruct (pop =? 0) eqn:Ep; probe_next; [|probe_failed].
  destruct fd as [[dwc|]|]; probe_next; [|probe_failed|probe_failed].
  destruct kp; probe_next; [|probe_failed].
  probe_log_split. left. z_tests. subst.
  repeat split; reflexivity.
Qed.

Lemma probe_log_outcome pdev w l :
  lc_log (snd (dwc3_imx8mp_probe pdev w)) = lc_log w ++ l ->
  probe_log pdev w = l.
Proof. intros H. unfold probe_log. now rewrite H, skipn_length_app. Qed.

(** X12: probe keeps the two clocks enabled exactly when it goes through
    to enabling runtime PM, and then it returns 0 with each clock
    enabled once more than before; on every other path, whichever step
    failed, both clocks are left exactly as they were found. *)
Theorem probe_clock_balance pdev w :
  if probe_completed pdev w
  then fst (dwc3_imx8mp_probe pdev w) = 0 /\
       enable_count (lc_bus_clk (snd (dwc3_imx8mp_probe pdev w)))
       = S (enable_count (lc_bus_clk w)) /\
       enable_count (lc_sleep_clk (snd (dwc3_imx8mp_probe pdev w)))
       = S (enable_count (lc_sleep_clk w))
  else lc_bus_clk (snd (dwc3_imx8mp_probe pdev w)) = lc_bus_clk w /\
       lc_sleep_clk (snd (dwc3_imx8mp_probe pdev w)) = lc_sleep_clk w.
Proof.
  destruct (dwc3_imx8mp_probe_outcome pdev w) as (l & Hl & H).
  unfold probe_completed. rewrite (probe_log_outcome pdev w l Hl).
  destruct H as [(Hr & He & _ & _ & _ & _ & Hb & Hs)
                |(He & _ & Hb & Hs & _)]; rewrite He.
  - rewrite Hb, Hs. repeat split. exact Hr.
  - now split.
Qed.

(** X13: a zero return of probe does not always mean that the device is
    set up.  Probe returns 0 either after completing, or when every step
    up to the interrupt request succeeded and the node has no child
    named dwc3: in that case it has released both clocks again, has
    populated nothing and has not enabled runtime PM, and still returns
    0, the result of the interrupt request. *)
Theorem probe_zero_return pdev w :
  fst (dwc3_imx8mp_probe pdev w) = 0 ->
  probe_completed pdev w = true \/
  (probe_completed pdev w = false /\
   of_get_child_by_name pdev = false /\
   probe_log pdev w = probe_log_no_child (platform_get_irq pdev) /\
   lc_bus_clk (snd (dwc3_imx8mp_probe pdev w)) = lc_bus_clk w /\
   lc_sleep_clk (snd (dwc3_imx8mp_probe pdev w)) = lc_sleep_clk w).
Proof.
  intros Hr.
  destruct (dwc3_imx8mp_probe_outcome pdev w) as (l & Hl & H).
  unfold probe_completed. rewrite (probe_log_outcome pdev w l Hl).
  destruct H as [(_ & He & _)|(He & _ & Hb & Hs & Hz)].
  - now left.
  - right. destruct (Hz Hr) as [Hc Hlog]. now repeat split.
Qed.

Lemma probe_zero_return_witness :
  fst (dwc3_imx8mp_probe sample_platform_no_child sample_lifecycle) = 0 /\
  probe_completed sample_platform_no_child sample_lifecycle = false /\
  lc_bus_clk (snd (dwc3_imx8mp_probe sample_platform_no_child sample_lifecycle))
  = sample_clk 0 0.
Proof.
  split; [reflexivity|]. split; [reflexivity|].
  destruct (probe_zero_return sample_platform_no_child sample_lifecycle
              eq_refl) as [H|(_ & _ & _ & H & _)].
  - discriminate H.
  - exact H.
Defined.

(** X14: probe depopulates the children exactly once when it fails after
    having populated them (no dwc3 device found, dwc3 core not bound
    yet, or no memory for the private data), and never otherwise: not
    when it completes, and not when it fails before or in populating. *)
Theorem probe_depopulates_after_populate pdev w :
  filter is_depopulate (probe_log pdev w)
  = if existsb is_populated (probe_log pdev w)
       && negb (probe_completed pdev w)
    then [OfPlatformDepopulate] else [].
Proof.
  destruct (dwc3_imx8mp_probe_outcome pdev w) as (l & Hl & H).
  unfold probe_completed. rewrite (probe_log_outcome pdev w l Hl).
  destruct H as [(_ & He & Hp & Hd & _)|(He & Hd & _)];
    rewrite He, Hd.
  - now rewrite Hp.
  - now rewrite andb_true_r.
Qed.

(** X15: remove undoes a completed probe as far as the clocks go: it
    returns 0, depopulates the children, and disables each clock once,
    so that both enable counts are back at their values from before
    probe; it ends by disabling runtime PM and clearing the driver
    data. *)
Theorem remove_after_probe pdev w :
  probe_completed pdev w = true ->
  fst (dwc3_imx8mp_remove (snd (dwc3_imx8mp_probe pdev w))) = 0 /\
  enable_count
    (lc_bus_clk (snd (dwc3_imx8mp_remove (snd (dwc3_imx8mp_probe pdev w)))))
  = enable_count (lc_bus_clk w) /\
  enable_count
    (lc_sleep_clk (snd (dwc3_imx8mp_remove (snd (dwc3_imx8mp_probe pdev w)))))
  = enable_count (lc_sleep_clk w) /\
  lc_log (snd (dwc3_imx8mp_remove (snd (dwc3_imx8mp_probe pdev w))))
  = lc_log (snd (dwc3_imx8mp_probe pdev w))
    ++ [LcPmRuntimeGetSync; OfPlatformDepopulate;
        LcClkDisableUnprepare BusClk; LcClkDisableUnprepare SleepClk;
        LcPmRuntimeDisable; LcPmRuntimePutNoidle; PlatformSetDrvdata false].
Proof.
  intros Hc.
  destruct (dwc3_imx8mp_probe_outcome pdev w) as (l & Hl & H).
  unfold probe_completed in Hc. rewrite (probe_log_outcome pdev w l Hl) in Hc.
  destruct H as [(_ & _ & _ & _ & _ & _ & Hb & Hs)|(He & _)];
    [|congruence].
  generalize dependent (snd (dwc3_imx8mp_probe pdev w)).
  intros w1 _ Hb Hs. destruct w1 as [b1 s1 l1].
  cbn [lc_bus_clk lc_sleep_clk] in Hb, Hs. subst b1 s1.
  probe_eval. repeat split.
  now rewrite <- !app_assoc.
Qed.

Lemma remove_after_probe_witness :
  probe_completed sample_platform sample_lifecycle = true /\
  enable_count
    (lc_bus_clk (snd (dwc3_imx8mp_remove
                        (snd (dwc3_imx8mp_probe sample_platform
                                                sample_lifecycle)))))
  = 0%nat.
Proof.
  split; [reflexivity|].
  exact (proj1 (proj2 (remove_after_probe sample_platform sample_lifecycle
                         eq_refl))).
Defined.

(* ================================================================== *)
(** * The audio clock multiplexer across system sleep *)
(* ================================================================== *)

(** A save area of 32 elements, element by element. *)
Ltac regs32 rg H :=
  do 32 (destruct rg as [|? rg]; [discriminate H|]);
  destruct rg; [clear H|discriminate H].

Ltac in_list := repeat (first [left; reflexivity | right]).

Lemma acm_saved_offset_test off :
  ~ In off (map snd acm_saved) ->
  forall c, In c (map snd acm_saved) -> (off =? c) = false.
Proof.
  intros H c Hc. apply Z.eqb_neq. intros ->. contradiction.
Qed.

(** X16: the multiplexer registers survive a system sleep.  With a save
    area of 32 elements, suspend copies the eighteen registers it names
    into the save area without changing the bank, and a resume that
    finds the bank in any state [hw] puts each of those registers back
    to its value from before the suspend, leaves every other register of
    the bank as it found it and leaves the save area alone; both return
    0. *)
Theorem acm_suspend_resume_restores priv hw :
  length (regs priv) = 32%nat ->
  fst (imx8qm_acm_suspend priv) = 0 /\
  fst (imx8qm_acm_resume (power_cycle hw (snd (imx8qm_acm_suspend priv)))) = 0 /\
  (forall off, reg (snd (imx8qm_acm_suspend priv)) off = reg priv off) /\
  (forall i off, In (i, off) acm_saved ->
     nth i (regs (snd (imx8qm_acm_suspend priv))) 0 = reg priv off /\
     reg (snd (imx8qm_acm_resume
                 (power_cycle hw (snd (imx8qm_acm_suspend priv))))) off
     = reg priv off) /\
  (forall off, ~ In off (map snd acm_saved) ->
     reg (snd (imx8qm_acm_resume
                 (power_cycle hw (snd (imx8qm_acm_suspend priv))))) off
     = hw off) /\
  regs (snd (imx8qm_acm_resume (power_cycle hw (snd (imx8qm_acm_suspend priv)))))
  = regs (snd (imx8qm_acm_suspend priv)).
Proof.
  destruct priv as [hw0 rg]. cbn [regs]. intros Hlen. regs32 rg Hlen.
  split; [reflexivity|]. split; [reflexivity|]. split; [reflexivity|].
  split; [|split; [|reflexivity]].
  - intros i off Hin. cbn [In acm_saved] in Hin.
    repeat (destruct Hin as [Hin|Hin];
            [injection Hin as <- <-; split; reflexivity|]).
    contradiction.
  - intros off Hoff.
    pose proof (acm_saved_offset_test off Hoff) as Hf.
    cbv beta iota zeta delta
      [imx8qm_acm_resume imx8qm_acm_suspend acm_restore acm_save
       writel_relaxed readl_relaxed power_cycle reg regs snd].
    rewrite !Hf by (cbn [map snd acm_saved In]; in_list).
    reflexivity.
Qed.

Lemma acm_suspend_resume_restores_witness :
  length (regs sample_acm) = 32%nat /\
  reg (snd (imx8qm_acm_resume
              (power_cycle (fun _ => 0) (snd (imx8qm_acm_suspend sample_acm)))))
      0x1C0000
  = 0x1C0001.
Proof.
  split; [reflexivity|].
  destruct (acm_suspend_resume_restores sample_acm (fun _ => 0) eq_refl)
    as (_ & _ & _ & H & _).
  rewrite (proj2 (H 28%nat 0x1C0000 ltac:(cbn [In acm_saved]; in_list))).
  reflexivity.
Defined.

(** X17: the multiplexers probe registers and the registers saved over
    system sleep are the same set.  Every multiplexer registered by
    probe has its selector register restored by resume after a suspend,
    whatever happened to the bank in between; its selector field lies
    within the 32-bit register and is wide enough to number all of its
    parents; and every register that suspend saves is the selector
    register of one of these multiplexers, kept in the slot whose index
    is the register offset divided by 0x10000. *)
Theorem acm_muxes_survive_sleep priv hw :
  length (regs priv) = 32%nat ->
  (forall m, In m acm_muxes ->
     reg (snd (imx8qm_acm_resume
                 (power_cycle hw (snd (imx8qm_acm_suspend priv)))))
         (mux_reg m)
     = reg priv (mux_reg m) /\
     0 <= mux_shift m /\ mux_shift m + mux_width m <= 32 /\
     Z.of_nat (length (mux_parents m)) <= 2 ^ mux_width m) /\
  (forall i off, In (i, off) acm_saved ->
     off = 0x10000 * Z.of_nat i /\
     exists m, In m acm_muxes /\ mux_reg m = off).
Proof.
  intros Hlen. split.
  - intros m Hm.
    assert (Hin : In (Z.to_nat (mux_reg m / 0x10000), mux_reg m) acm_saved /\
                  0 <= mux_shift m /\ mux_shift m + mux_width m <= 32 /\
                  Z.of_nat (length (mux_parents m)) <= 2 ^ mux_width m).
    { clear Hlen. cbn [In acm_muxes] in Hm.
      repeat (destruct Hm as [<-|Hm];
              [split; [cbn; in_list | cbn; lia]|]).
      contradiction. }
    destruct Hin as (Hin & Hfield). split; [|exact Hfield].
    destruct priv as [hw0 rg]. cbn [regs] in Hlen. regs32 rg Hlen.
    cbn [In acm_saved] in Hin.
    repeat (destruct Hin as [Hin|Hin];
            [injection Hin as _ <-; reflexivity|]).
    contradiction.
  - clear Hlen. intros i off Hin.
    assert (Hall : forallb
              (fun p => (snd p =? 0x10000 * Z.of_nat (fst p))
                        && existsb (fun m => mux_reg m =? snd p) acm_muxes)
              acm_saved = true) by reflexivity.
    rewrite forallb_forall in Hall. specialize (Hall (i, off) Hin).
    cbn [fst snd] in Hall. apply andb_prop in Hall. destruct Hall as [H1 H2].
    apply Z.eqb_eq in H1. apply existsb_exists in H2.
    destruct H2 as (m & Hm & Hoff). apply Z.eqb_eq in Hoff.
    split; [exact H1|]. exists m. now split.
Qed.

Lemma acm_muxes_survive_sleep_witness :
  length (regs sample_acm) = 32%nat /\
  reg (snd (imx8qm_acm_resume
              (power_cycle (fun _ => 0) (snd (imx8qm_acm_suspend sample_acm)))))
      0x0E0000
  = 0x0E0001.
Proof.
  split; [reflexivity|].
  destruct (acm_muxes_survive_sleep sample_acm (fun _ => 0) eq_refl)
    as (H & _).
  pose proof (proj1 (H {| mux_name := "acm_sai0_mclk_sel"%string;
                          mux_reg := 0x0E0000; mux_shift := 0; mux_width := 2;
                          mux_parents := sai_mclk_sels |}
                       ltac:(cbn [In acm_muxes]; in_list))) as E.
  cbn [mux_reg] in E. rewrite E. reflexivity.
Defined.

(* ================================================================== *)
(** * Width of the register values *)
(* ================================================================== *)





(* ================================================================== *)
(** * Probe of the audio clock multiplexer *)
(* ================================================================== *)

(** The loop over the power domains when the first [k] domains from [i]
    attach and link and the next one fails. *)
Lemma acm_attach_domains_first_error pdev e k : forall n i log,
  (k < n)%nat ->
  (forall j, i <= j < i + Z.of_nat k ->
     acm_pm_domain_attach_by_id pdev j = Valid /\
     acm_device_link_add pdev j = Valid) ->
  acm_pm_domain_attach_by_id pdev (i + Z.of_nat k) = ErrPtr e \/
  (acm_pm_domain_attach_by_id pdev (i + Z.of_nat k) = Valid /\
   acm_device_link_add pdev (i + Z.of_nat k) = ErrPtr e) ->
  acm_attach_domains pdev n i log
  = (Some (Z.neg e),
     log ++ acm_domain_actions k i
         ++ AcmAttachDomain (i + Z.of_nat k)
            :: match acm_pm_domain_attach_by_id pdev (i + Z.of_nat k) with
               | Valid => [AcmLinkDomain (i + Z.of_nat k)]
               | ErrPtr _ => []
               end).
Proof.
  induction k as [|k IH]; intros n i log Hn Hok Hbad.
  - destruct n as [|n]; [lia|].
    cbn [Z.of_nat] in *. rewrite Z.add_0_r in *.
    cbn [acm_attach_domains acm_domain_actions app].
    destruct Hbad as [Ha|[Ha Hl]]; rewrite Ha.
    + reflexivity.
    + rewrite Hl. now rewrite <- app_assoc.
  - destruct n as [|n]; [lia|].
    cbn [acm_attach_domains acm_domain_actions].
    destruct (Hok i ltac:(lia)) as [Ha Hl]. rewrite Ha, Hl.
    replace (i + Z.of_nat (S k)) with ((i + 1) + Z.of_nat k) in * by lia.
    rewrite (IH n (i + 1)); try lia; try assumption.
    + now rewrite <- !app_assoc.
    + intros j Hj. apply Hok. lia.
Qed.

(** The loop over the power domains when every domain attaches and
    links. *)
Lemma acm_attach_domains_all pdev : forall n i log,
  (forall j, i <= j < i + Z.of_nat n ->
     acm_pm_domain_attach_by_id pdev j = Valid /\
     acm_device_link_add pdev j = Valid) ->
  acm_attach_domains pdev n i log = (None, log ++ acm_domain_actions n i).
Proof.
  induction n as [|n IH]; intros i log Hok.
  - cbn. now rewrite app_nil_r.
  - cbn [acm_attach_domains acm_domain_actions].
    destruct (Hok i ltac:(lia)) as [Ha Hl]. rewrite Ha, Hl.
    rewrite IH by (intros j Hj; apply Hok; lia).
    now rewrite <- !app_assoc.
Qed.

(** X19: the multiplexer's probe stops at the first power domain that
    fails.  When the allocations succeed and domain [k] is the first
    whose attach or link returns an error pointer, probe returns that
    error, having attached and linked the domains before [k] in index
    order and attempted [k]; it registers no clock and no provider, and
    it does nothing to detach the domains it had attached. *)
Theorem acm_probe_stops_at_first_domain_error pdev k e :
  acm_devm_ioremap pdev = true -> acm_devm_kzalloc_priv pdev = true ->
  acm_kzalloc_clk_data pdev = true -> acm_kcalloc_clks pdev = true ->
  0 <= k < acm_num_domains pdev ->
  (forall j, 0 <= j < k ->
     acm_pm_domain_attach_by_id pdev j = Valid /\
     acm_device_link_add pdev j = Valid) ->
  acm_pm_domain_attach_by_id pdev k = ErrPtr e \/
  (acm_pm_domain_attach_by_id pdev k = Valid /\
   acm_device_link_add pdev k = ErrPtr e) ->
  fst (imx8qm_acm_clk_probe pdev) = Z.neg e /\
  snd (imx8qm_acm_clk_probe pdev)
  = AcmSetDrvdata :: acm_domain_actions (Z.to_nat k) 0
      ++ AcmAttachDomain k
         :: match acm_pm_domain_attach_by_id pdev k with
            | Valid => [AcmLinkDomain k]
            | ErrPtr _ => []
            end /\
  existsb acm_registers (snd (imx8qm_acm_clk_probe pdev)) = false.
Proof.
  intros H1 H2 H3 H4 Hk Hok Hbad.
  unfold imx8qm_acm_clk_probe. rewrite H1, H2, H3, H4. cbn [negb].
  rewrite (acm_attach_domains_first_error pdev e (Z.to_nat k)).
  - rewrite !Z2Nat.id, !Z.add_0_l by lia. cbn [fst snd app].
    split; [reflexivity|]. split; [reflexivity|].
    cbn [existsb acm_registers orb]. rewrite existsb_app.
    assert (Hd : forall n i, existsb acm_registers (acm_domain_actions n i)
                             = false).
    { induction n as [|n IHn]; intros i; [reflexivity|].
      cbn [acm_domain_actions existsb acm_registers orb]. apply IHn. }
    rewrite Hd. now destruct (acm_pm_domain_attach_by_id pdev k).
  - lia.
  - intros j Hj. apply Hok. lia.
  - now rewrite Z2Nat.id, Z.add_0_l by lia.
Qed.

Lemma acm_probe_stops_at_first_domain_error_witness :
  fst (imx8qm_acm_clk_probe sample_acm_platform) = - ENODEV /\
  snd (imx8qm_acm_clk_probe sample_acm_platform)
  = [AcmSetDrvdata; AcmAttachDomain 0; AcmLinkDomain 0;
     AcmAttachDomain 1; AcmLinkDomain 1].
Proof.
  assert (Hok : forall j, 0 <= j < 1 ->
            acm_pm_domain_attach_by_id sample_acm_platform j = Valid /\
            acm_device_link_add sample_acm_platform j = Valid).
  { intros j Hj. assert (j = 0) as -> by lia. split; reflexivity. }
  destruct (acm_probe_stops_at_first_domain_error sample_acm_platform 1 19
              eq_refl eq_refl eq_refl eq_refl
              (conj (Zle_0_pos 1) eq_refl) Hok
              (or_intror (conj eq_refl eq_refl))) as (Hr & Hl & _).
  split; [exact Hr | exact Hl].
Defined.

(** X20: when the allocations succeed and every power domain attaches
    and links, the multiplexer's probe attaches and links the domains in
    index order, registers its 23 fixed clocks and then its 18
    multiplexers in program order, adds the clock provider and returns
    the provider's result: 0, or its error without undoing anything.  A
    negative or zero domain count means no domain at all. *)
Theorem acm_probe_registers_all pdev :
  acm_devm_ioremap pdev = true -> acm_devm_kzalloc_priv pdev = true ->
  acm_kzalloc_clk_data pdev = true -> acm_kcalloc_clks pdev = true ->
  (forall j, 0 <= j < acm_num_domains pdev ->
     acm_pm_domain_attach_by_id pdev j = Valid /\
     acm_device_link_add pdev j = Valid) ->
  fst (imx8qm_acm_clk_probe pdev) = acm_of_clk_add_provider pdev /\
  snd (imx8qm_acm_clk_probe pdev)
  = AcmSetDrvdata
    :: acm_domain_actions (Z.to_nat (acm_num_domains pdev)) 0
    ++ map AcmClkFixed acm_fixed_clks
    ++ map AcmClkMux acm_muxes
    ++ [AcmAddProvider] /\
  length (filter acm_registers (snd (imx8qm_acm_clk_probe pdev)))
  = (23 + 18 + 1)%nat.
Proof.
  intros H1 H2 H3 H4 Hok.
  unfold imx8qm_acm_clk_probe. rewrite H1, H2, H3, H4. cbn [negb].
  rewrite acm_attach_domains_all.
  - cbn [fst snd]. split; [reflexivity|].
    assert (Hlog : (([AcmSetDrvdata]
                     ++ acm_domain_actions (Z.to_nat (acm_num_domains pdev)) 0)
                    ++ map AcmClkFixed acm_fixed_clks)
                   ++ map AcmClkMux acm_muxes ++ [AcmAddProvider]
                   = AcmSetDrvdata
                     :: acm_domain_actions (Z.to_nat (acm_num_domains pdev)) 0
                     ++ map AcmClkFixed acm_fixed_clks
                     ++ map AcmClkMux acm_muxes ++ [AcmAddProvider])
      by (now rewrite <- !app_assoc).
    rewrite <- app_assoc. rewrite Hlog. split; [reflexivity|].
    cbn [filter acm_registers]. rewrite filter_app.
    assert (Hd : forall n i, filter acm_registers (acm_domain_actions n i) = []).
    { induction n as [|n IHn]; intros i; [reflexivity|].
      cbn [acm_domain_actions filter acm_registers]. apply IHn. }
    rewrite Hd. reflexivity.
  - intros j Hj. apply Hok.
    destruct (acm_num_domains pdev); cbn in Hj; lia.
Qed.

Lemma acm_probe_registers_all_witness :
  fst (imx8qm_acm_clk_probe sample_acm_platform_ok) = 0 /\
  length (snd (imx8qm_acm_clk_probe sample_acm_platform_ok)) = 47%nat.
Proof.
  assert (Hok : forall j, 0 <= j < acm_num_domains sample_acm_platform_ok ->
            acm_pm_domain_attach_by_id sample_acm_platform_ok j = Valid /\
            acm_device_link_add sample_acm_platform_ok j = Valid).
  { intros j _. split; reflexivity. }
  destruct (acm_probe_registers_all sample_acm_platform_ok
              eq_refl eq_refl eq_refl eq_refl Hok) as (Hr & Hl & _).
  split; [exact Hr|]. rewrite Hl. reflexivity.
Defined.
